(** * The bonus-potential cubing calculator (frontend/src/App.tsx)

    A shallow embedding of the probability engine of [App.tsx]:
    catalogue filtering, [potentialToFd], [computeMultiplicativeFd],
    [calcProb], [geomPercentile], [buildResult] and [handleCalculate], and of
    the state logic around it.

    Numbers.  A JavaScript number is modelled by [JS.num]: an exact rational,
    [+Infinity], [-Infinity] or [NaN]; numbers read from the two JSON files
    are rationals ([Q]), and the last branch of [geomPercentile], which uses
    [Math.log], is written over [R].  This is the arithmetic of the program
    without the rounding and the range of binary64, and without the sign of
    zero; NaN propagation, comparisons with NaN and the infinities are
    written out.  The properties below are those that do not depend on the
    difference: they follow the program's own comparisons, its control flow,
    the order of its sums and exact values such as 0 and 1.  Identities that
    hold for exact numbers only are not stated; where a claim asserts one,
    [Binary64] replays the program's operations on binary64 numbers. *)

From Stdlib Require Import Floats.
From Stdlib Require Import QArith Qround Qabs Qpower Reals Qreals Lra Lqa Lia ZArith List Ascii String Bool Permutation.
From stdpp Require Import gmap strings sorting.
Import ListNotations.

Local Open Scope Q_scope.

(** ** JavaScript built-ins used by the program *)
Module JS.

Inductive num : Type :=
| Fin (q : Q)
| PInf
| NInf
| NaN.

Definition infBySign (c : comparison) : num :=
  match c with Gt => PInf | Lt => NInf | Eq => NaN end.

Definition add (a b : num) : num :=
  match a, b with
  | NaN, _ | _, NaN => NaN
  | Fin x, Fin y => Fin (x + y)
  | PInf, NInf | NInf, PInf => NaN
  | PInf, _ | _, PInf => PInf
  | NInf, _ | _, NInf => NInf
  end.

Definition neg (a : num) : num :=
  match a with
  | Fin x => Fin (- x)
  | PInf => NInf
  | NInf => PInf
  | NaN => NaN
  end.

Definition sub (a b : num) : num := add a (neg b).

Definition mul (a b : num) : num :=
  match a, b with
  | NaN, _ | _, NaN => NaN
  | Fin x, Fin y => Fin (x * y)
  | Fin x, PInf | PInf, Fin x => infBySign (x ?= 0)
  | Fin x, NInf | NInf, Fin x => infBySign (0 ?= x)
  | PInf, PInf | NInf, NInf => PInf
  | PInf, NInf | NInf, PInf => NInf
  end.

(** Division; a zero divisor is taken as [+0]. *)
Definition div (a b : num) : num :=
  match a, b with
  | NaN, _ | _, NaN => NaN
  | Fin x, Fin y => if Qeq_bool y 0 then infBySign (x ?= 0) else Fin (x / y)
  | Fin _, _ => Fin 0
  | PInf, Fin y => if Qle_bool 0 y then PInf else NInf
  | NInf, Fin y => if Qle_bool 0 y then NInf else PInf
  | _, _ => NaN
  end.

(** [a < b]; false as soon as one side is [NaN]. *)
Definition ltb (a b : num) : bool :=
  match a, b with
  | NaN, _ | _, NaN => false
  | Fin x, Fin y => negb (Qle_bool y x)
  | _, NInf => false
  | NInf, _ => true
  | PInf, _ => false
  | _, PInf => true
  end.

Definition gtb (a b : num) : bool := ltb b a.

(** [a <= b]; false as soon as one side is [NaN]. *)
Definition leb (a b : num) : bool :=
  match a, b with
  | NaN, _ | _, NaN => false
  | Fin x, Fin y => Qle_bool x y
  | NInf, _ => true
  | _, PInf => true
  | _, _ => false
  end.

Definition geb (a b : num) : bool := leb b a.

(** [a === b] on numbers. *)
Definition eqb (a b : num) : bool :=
  match a, b with
  | Fin x, Fin y => Qeq_bool x y
  | PInf, PInf | NInf, NInf => true
  | _, _ => false
  end.

(** The same mathematical value (unlike [===], reflexive at [NaN]). *)
Definition same (a b : num) : Prop :=
  match a, b with
  | Fin x, Fin y => x == y
  | PInf, PInf | NInf, NInf | NaN, NaN => True
  | _, _ => False
  end.

Definition floor (a : num) : num :=
  match a with
  | Fin x => Fin (inject_Z (Qfloor x))
  | _ => a
  end.

(** An integer or [NaN], as returned by [parseInt]. *)
Definition ofInt (n : option Z) : num :=
  match n with
  | Some z => Fin (inject_Z z)
  | None => NaN
  end.

(** *** Scanning text *)

(** White space: the bytes 9 to 13 and 32.  The further white-space
    characters of the language (U+00A0, U+FEFF, U+2028, ...) lie outside a
    one-byte character and are not covered. *)
Definition isWhite (c : ascii) : bool :=
  let n := nat_of_ascii c in
  ((9 <=? n) && (n <=? 13))%nat || (n =? 32)%nat.

Definition digitVal (c : ascii) : option Z :=
  let n := Z.of_nat (nat_of_ascii c) in
  if ((48 <=? n) && (n <=? 57))%Z then Some (n - 48)%Z
  else if ((97 <=? n) && (n <=? 102))%Z then Some (n - 87)%Z
  else if ((65 <=? n) && (n <=? 70))%Z then Some (n - 55)%Z
  else None.

Definition isDigit (c : ascii) : bool :=
  let n := nat_of_ascii c in ((48 <=? n) && (n <=? 57))%nat.

Fixpoint skipWs (s : list ascii) : list ascii :=
  match s with
  | c :: r => if isWhite c then skipWs r else s
  | [] => []
  end.

(** The longest run of decimal digits at the head, and what follows it. *)
Fixpoint spanDigits (s : list ascii) : list ascii * list ascii :=
  match s with
  | c :: r =>
      if isDigit c then let (d, t) := spanDigits r in (c :: d, t)
      else ([], s)
  | [] => ([], [])
  end.

Fixpoint stripPrefix (p s : list ascii) : option (list ascii) :=
  match p, s with
  | [], _ => Some s
  | a :: p', b :: s' => if Ascii.eqb a b then stripPrefix p' s' else None
  | _ :: _, [] => None
  end.

Definition takeSign (s : list ascii) : Z * list ascii :=
  match s with
  | "-"%char :: r => ((-1)%Z, r)
  | "+"%char :: r => (1%Z, r)
  | _ => (1%Z, s)
  end.

(** Value of the longest prefix of [s] made of digits below [radix];
    [acc] is [None] until a digit has been read. *)
Fixpoint readDigits (radix : Z) (s : list ascii) (acc : option Z) : option Z :=
  match s with
  | c :: r =>
      match digitVal c with
      | Some d =>
          if (d <? radix)%Z
          then readDigits radix r
                 (Some (match acc with Some a => a | None => 0 end * radix + d)%Z)
          else acc
      | None => acc
      end
  | [] => acc
  end.

(** [parseInt(s)] without a radix argument: leading white space, a sign,
    an optional [0x] prefix, then the longest run of digits; [None] is
    [NaN]. *)
Definition parseInt (s : string) : option Z :=
  let (sgn, s1) := takeSign (skipWs (list_ascii_of_string s)) in
  let (radix, s2) :=
    match s1 with
    | "0"%char :: "x"%char :: r | "0"%char :: "X"%char :: r => (16%Z, r)
    | _ => (10%Z, s1)
    end in
  option_map (Z.mul sgn) (readDigits radix s2 None).

Definition decimalVal (d : list ascii) : Z :=
  match readDigits 10 d None with Some z => z | None => 0%Z end.

(** [parseFloat(s)]: leading white space, a sign, then [Infinity] or the
    longest decimal literal (digits, fraction, exponent).  The value is the
    exact decimal: neither rounded to binary64 nor limited to its range. *)
Definition parseFloat (s : string) : num :=
  let (sgn, s1) := takeSign (skipWs (list_ascii_of_string s)) in
  match stripPrefix (list_ascii_of_string "Infinity") s1 with
  | Some _ => if (sgn <? 0)%Z then NInf else PInf
  | None =>
      let (ip, s2) := spanDigits s1 in
      let (fp, s3) :=
        match s2 with
        | "."%char :: r => spanDigits r
        | _ => ([], s2)
        end in
      match ip, fp with
      | [], [] => NaN
      | _, _ =>
          let e :=
            match s3 with
            | "e"%char :: r | "E"%char :: r =>
                let (es, r1) := takeSign r in
                let (ed, _) := spanDigits r1 in
                match ed with
                | [] => 0%Z
                | _ => (es * decimalVal ed)%Z
                end
            | _ => 0%Z
            end in
          Fin (inject_Z sgn
               * (inject_Z (decimalVal ip)
                  + inject_Z (decimalVal fp) / inject_Z (10 ^ Z.of_nat (List.length fp)))
               * (10 # 1) ^ e)
      end
  end.

(** [x.toFixed(d)] read back as a number: the multiple of [10^-d] nearest
    to [x], ties away from zero (the text the method returns denotes this
    number; magnitudes of [1e21] and more, which print in exponent
    notation, are not treated apart). *)
Definition toFixed (d : nat) (x : Q) : Q :=
  let k := inject_Z (10 ^ Z.of_nat d) in
  if Qle_bool 0 x
  then inject_Z (Qfloor (x * k + (1 # 2))) / k
  else - (inject_Z (Qfloor ((- x) * k + (1 # 2))) / k).

End JS.


Import JS.

(** ** [cleanPotentialName]

    [name.replace(/(\d+% chance to recover [HM]P when attacking\.)\s*\d+/, '$1')]:
    the leftmost match of the pattern loses its tail (white space and
    digits after the full stop).  Every quantifier of the pattern is followed
    by a character outside its class, so the greedy match is the only one to
    try at each start. *)

Definition recoverMid : list ascii := list_ascii_of_string "% chance to recover ".
Definition recoverEnd : list ascii := list_ascii_of_string "P when attacking.".

(** The pattern matched at the head of [s]: group 1 and the text after the
    whole match. *)
Definition matchRecover (s : list ascii) : option (list ascii * list ascii) :=
  let (d, s1) := spanDigits s in
  match d with
  | [] => None
  | _ =>
      match stripPrefix recoverMid s1 with
      | Some (c :: s2) =>
          if (Ascii.eqb c "H" || Ascii.eqb c "M")%bool then
            match stripPrefix recoverEnd s2 with
            | Some s3 =>
                let (n, s4) := spanDigits (skipWs s3) in
                match n with
                | [] => None
                | _ => Some (d ++ recoverMid ++ c :: recoverEnd, s4)
                end
            | None => None
            end
          else None
      | _ => None
      end
  end.

Fixpoint replaceRecover (s : list ascii) : list ascii :=
  match s with
  | [] => []
  | c :: r =>
      match matchRecover s with
      | Some (g, rest) => g ++ rest
      | None => c :: replaceRecover r
      end
  end.

Definition cleanPotentialName (name : string) : string :=
  string_of_list_ascii (replaceRecover (list_ascii_of_string name)).

(** ** Data *)

(** [levelRange?: { min?: number; max?: number }] *)
Record LevelRange : Type := {
  levelMin : option Q;
  levelMax : option Q
}.

Module BonusPotentialEntry.
Record t : Type := mk {
  potential : string;
  itemType : string;
  tier : string;
  probability : Q;
  levelRange : option LevelRange;
  statType : option string;
  statValue : option Q
}.
End BonusPotentialEntry.
Abbreviation Entry := BonusPotentialEntry.t.

(** One row of the stat table, both fields as typed by the user. *)
Record StatValue : Type := {
  value : string;
  fd : string
}.

(** [config.tierWeights.bright] and [.glowing]. *)
Record TierWeights : Type := {
  line2UniqueW : Q;
  line2LegW : Q;
  line3UniqueW : Q;
  line3LegW : Q
}.

(** The part of [config.json] the engine reads: [statAliases],
    [per9Stats] and the two profiles of [tierWeights].  The content of the
    file, like that of [bonus_potentials.json], is a parameter of everything
    below. *)
Record Config : Type := {
  statAliases : gmap string string;
  per9Stats : list string;
  bright : TierWeights;
  glowing : TierWeights
}.

(** [CubeResult].  The two text fields are modelled by the number they
    spell: [probability] is the percentage printed with six decimals,
    [avgCubes] the one-decimal average or [PInf] for the infinity sign. *)
Record CubeResult : Type := {
  probability : Q;
  avgCubes : num;
  p25 : num;
  p50 : num;
  p75 : num;
  p90 : num
}.

(** The state of the [App] component that [handleCalculate] reads and
    writes. *)
Record State : Type := {
  itemType : string;
  level : string;
  charLevel : string;
  line1 : string;
  line2 : string;
  line3 : string;
  skillCooldown : bool;
  statValues : gmap string StatValue;
  brightResult : option CubeResult;
  glowingResult : option CubeResult
}.

Module Cand.
Record t : Type := mk {
  fd : num;
  cd : nat;
  prob : Q
}.
End Cand.
Abbreviation Cand := Cand.t.

(** ** The engine *)

Definition isSkillCooldown (st : string) : bool := String.eqb st "Skill Cooldown".

(** [isCd = (p?) => p?.statType === 'Skill Cooldown'] *)
Definition isCd (p : option Entry) : bool :=
  match p with
  | Some e =>
      match BonusPotentialEntry.statType e with
      | Some st => isSkillCooldown st
      | None => false
      end
  | None => false
  end.

(** [computeMultiplicativeFd] *)
Definition computeMultiplicativeFd (fds : list num) : num :=
  let product :=
    fold_left (fun product fd => mul product (add (Fin 1) (div fd (Fin 100))))
              fds (Fin 1) in
  mul (sub product (Fin 1)) (Fin 100).

(** The body of the three nested loops of [calcProb] for one combination. *)
Definition addCombo (targetCdCount : nat) (targetFd : num)
    (c1 c2 c3 : Cand) (totalProb : Q) : Q :=
  let comboCd := (Cand.cd c1 + Cand.cd c2 + Cand.cd c3)%nat in
  if (targetCdCount <? comboCd)%nat then
    totalProb + Cand.prob c1 * Cand.prob c2 * Cand.prob c3
  else if (comboCd =? targetCdCount)%nat then
    let comboFd := computeMultiplicativeFd [Cand.fd c1; Cand.fd c2; Cand.fd c3] in
    if gtb comboFd targetFd then
      totalProb + Cand.prob c1 * Cand.prob c2 * Cand.prob c3
    else totalProb
  else totalProb.

(** The loop nest of [calcProb]: [totalProb] starts at 0 and runs through
    [line1Cands], [line2Cands], [line3Cands] in this order. *)
Definition enumerate (targetCdCount : nat) (targetFd : num)
    (line1Cands line2Cands line3Cands : list Cand) : Q :=
  fold_left (fun t1 c1 =>
    fold_left (fun t2 c2 =>
      fold_left (fun t3 c3 => addCombo targetCdCount targetFd c1 c2 c3 t3)
                line3Cands t2)
              line2Cands t1)
            line1Cands 0.

(** [geomPercentile].  The two guards are the program's; the last branch is
    written with the real logarithm. *)
Definition geomPercentile (p q : Q) : num :=
  if Qle_bool p 0 then PInf
  else if Qle_bool 1 p then Fin 1
  else Fin (inject_Z (Zceil (ln (1 - Q2R q) / ln (1 - Q2R p)))).

(** [buildResult] *)
Definition buildResult (prob : Q) : CubeResult :=
  {| probability := toFixed 6 (prob * 100);
     avgCubes := if negb (Qle_bool prob 0) then Fin (toFixed 1 (1 / prob)) else PInf;
     p25 := geomPercentile prob (25 # 100);
     p50 := geomPercentile prob (50 # 100);
     p75 := geomPercentile prob (75 # 100);
     p90 := geomPercentile prob (90 # 100) |}.

Section App.

(** [config.json] and [bonus_potentials.json]. *)
Variable config : Config.
Variable bonusPotentialsData : list Entry.

Definition STAT_ALIASES : gmap string string := statAliases config.
Definition PER_9_STATS : gset string := list_to_set (per9Stats config).

Section Render.

Variable s : State.

(** [statValues[k]?.value || '0'] and [statValues[k]?.fd || '0']: the
    fallback is taken for a missing row and for an empty text. *)
Definition textOr0 (field : StatValue -> string) (k : string) : string :=
  match statValues s !! k with
  | Some row => if String.eqb (field row) "" then "0"%string else field row
  | None => "0"%string
  end.

(** [potentialToFd] *)
Definition potentialToFd (entry : Entry) : num :=
  match BonusPotentialEntry.statType entry, BonusPotentialEntry.statValue entry with
  | Some st, Some sv =>
      if String.eqb st "" then Fin 0 else
      let lookupStat := default st (STAT_ALIASES !! st) in
      if isSkillCooldown st then Fin 0 else
      let userVal := parseFloat (textOr0 value lookupStat) in
      let userFd := parseFloat (textOr0 fd lookupStat) in
      if eqb userVal (Fin 0) then Fin 0 else
      let effectiveValue :=
        if bool_decide (st ∈ PER_9_STATS)
        then mul (Fin sv) (floor (div (ofInt (parseInt (charLevel s))) (Fin 9)))
        else Fin sv in
      mul effectiveValue (div userFd userVal)
  | _, _ => Fin 0
  end.

(** What follows is the body of [handleCalculate] after its guard, for
    the parsed item level [lvl]. *)
Variable lvl : Z.

Definition inRange (p : Entry) : bool :=
  let lr := BonusPotentialEntry.levelRange p in
  let min := default 0 (lr ≫= levelMin) in
  let max := match lr ≫= levelMax with Some m => Fin m | None => PInf end in
  geb (Fin (inject_Z lvl)) (Fin min) && leb (Fin (inject_Z lvl)) max.

Definition allPots : list Entry :=
  List.filter (fun p =>
      if negb (String.eqb (BonusPotentialEntry.itemType p) (itemType s)) then false
      else inRange p)
    bonusPotentialsData.

Definition legendaryPots : list Entry :=
  List.filter (fun p => String.eqb (BonusPotentialEntry.tier p) "legendary") allPots.
Definition uniquePots : list Entry :=
  List.filter (fun p => String.eqb (BonusPotentialEntry.tier p) "unique") allPots.

Definition nameIs (potName : string) (p : Entry) : bool :=
  String.eqb (cleanPotentialName (BonusPotentialEntry.potential p)) potName.

(** [a || b] on two optional entries (an entry is an object, hence
    truthy). *)
Definition orElse (a b : option Entry) : option Entry :=
  match a with Some _ => a | None => b end.

Definition findPot (potName tier : string) : option Entry :=
  orElse
    (List.find (fun p => nameIs potName p
                         && String.eqb (BonusPotentialEntry.tier p) tier) allPots)
    (List.find (fun p => nameIs potName p) allPots).

Definition sel1 : option Entry := findPot (line1 s) "legendary".
Definition sel2 : option Entry :=
  orElse (findPot (line2 s) "legendary") (findPot (line2 s) "unique").
Definition sel3 : option Entry :=
  orElse (findPot (line3 s) "legendary") (findPot (line3 s) "unique").

Definition targetCdCount : nat :=
  if skillCooldown s then List.length (List.filter isCd [sel1; sel2; sel3])
  else 0%nat.

Definition targetFds : list num :=
  List.map (fun p =>
      match p with
      | Some e => if negb (isCd p) then potentialToFd e else Fin 0
      | None => Fin 0
      end)
    [sel1; sel2; sel3].

Definition targetFd : num := computeMultiplicativeFd targetFds.

Definition toCand (p : Entry) (weight : Q) : Cand :=
  {| Cand.fd := if isCd (Some p) then Fin 0 else potentialToFd p;
     Cand.cd := if skillCooldown s && isCd (Some p) then 1%nat else 0%nat;
     Cand.prob := BonusPotentialEntry.probability p * weight |}.

Definition line1Cands : list Cand :=
  List.map (fun p => toCand p 1) legendaryPots.
Definition line2Cands (weights : TierWeights) : list Cand :=
  List.map (fun p => toCand p (line2UniqueW weights)) uniquePots
  ++ List.map (fun p => toCand p (line2LegW weights)) legendaryPots.
Definition line3Cands (weights : TierWeights) : list Cand :=
  List.map (fun p => toCand p (line3UniqueW weights)) uniquePots
  ++ List.map (fun p => toCand p (line3LegW weights)) legendaryPots.

(** [calcProb] *)
Definition calcProb (weights : TierWeights) : Q :=
  enumerate targetCdCount targetFd
            line1Cands (line2Cands weights) (line3Cands weights).

End Render.

(** [handleCalculate]: the new state of the component.  The early
    [return] leaves the state as it is. *)
Definition handleCalculate (s : State) : State :=
  let lvl := parseInt (level s) in
  match lvl with
  | None => s
  | Some l =>
      if String.eqb (itemType s) "" then s
      else
        {| itemType := itemType s; level := level s; charLevel := charLevel s;
           line1 := line1 s; line2 := line2 s; line3 := line3 s;
           skillCooldown := skillCooldown s; statValues := statValues s;
           brightResult := Some (buildResult (calcProb s l (bright config)));
           glowingResult := Some (buildResult (calcProb s l (glowing config))) |}
  end.

End App.

(** ** Notions used to state the properties *)

(** The product of the claim: [∏ (1 + b_i/100)]. *)
Definition stackProduct (bs : list Q) : Q :=
  fold_right (fun b acc => (1 + b / 100) * acc) 1 bs.

(** The cross product of the three candidate lists, in loop order. *)
Definition combos (l1 l2 l3 : list Cand) : list (Cand * Cand * Cand) :=
  flat_map (fun c1 => flat_map (fun c2 => List.map (fun c3 => (c1, c2, c3)) l3) l2) l1.

Definition comboCd (c : Cand * Cand * Cand) : nat :=
  let '(c1, c2, c3) := c in (Cand.cd c1 + Cand.cd c2 + Cand.cd c3)%nat.

Definition comboFd (c : Cand * Cand * Cand) : num :=
  let '(c1, c2, c3) := c in
  computeMultiplicativeFd [Cand.fd c1; Cand.fd c2; Cand.fd c3].

Definition comboProb (c : Cand * Cand * Cand) : Q :=
  let '(c1, c2, c3) := c in Cand.prob c1 * Cand.prob c2 * Cand.prob c3.

(** A win in the words of the specification. *)
Definition winsAgainst (baselineCd : nat) (baselineFd : num)
    (c : Cand * Cand * Cand) : Prop :=
  (baselineCd < comboCd c)%nat
  \/ (comboCd c = baselineCd /\ gtb (comboFd c) baselineFd = true).

Definition isWin (baselineCd : nat) (baselineFd : num)
    (c : Cand * Cand * Cand) : bool :=
  (baselineCd <? comboCd c)%nat
  || ((comboCd c =? baselineCd)%nat && gtb (comboFd c) baselineFd).

(** Sum of a list of rationals, accumulated from 0 as [totalProb] is. *)
Definition total (l : list Q) : Q := fold_left Qplus l 0.

(** *** Well-formed catalogue and weights *)

Definition probsNonneg (data : list Entry) : Prop :=
  forall p, In p data -> 0 <= BonusPotentialEntry.probability p.

Definition weightsNonneg (w : TierWeights) : Prop :=
  0 <= line2UniqueW w /\ 0 <= line2LegW w /\ 0 <= line3UniqueW w /\ 0 <= line3LegW w.

(** Two states of the component with the same item, character and stat
    table; they may differ in the three selected lines. *)
Definition sameSettings (a b : State) : Prop :=
  itemType a = itemType b /\ charLevel a = charLevel b
  /\ skillCooldown a = skillCooldown b /\ statValues a = statValues b.

(** Eligibility in the words of the specification: the category matches
    and the level range contains the level, a missing lower bound read as 0
    and a missing upper bound as no bound. *)
Definition eligibleSpec (itemCategory : string) (itemLevel : Z) (p : Entry) : Prop :=
  BonusPotentialEntry.itemType p = itemCategory
  /\ default 0 (BonusPotentialEntry.levelRange p ≫= levelMin) <= inject_Z itemLevel
  /\ match BonusPotentialEntry.levelRange p ≫= levelMax with
     | Some m => inject_Z itemLevel <= m
     | None => True
     end.

(** The canonical stat name and the two numbers the user observed for it. *)
Definition canonical (config : Config) (st : string) : string :=
  default st (statAliases config !! st).
Definition observedMagnitude (config : Config) (s : State) (st : string) : num :=
  parseFloat (textOr0 s value (canonical config st)).
Definition observedBonusPercent (config : Config) (s : State) (st : string) : num :=
  parseFloat (textOr0 s fd (canonical config st)).

(** The magnitude is absent (no row, or an empty text) or reads as zero. *)
Definition magnitudeZeroOrAbsent (config : Config) (s : State) (st : string) : Prop :=
  match statValues s !! canonical config st with
  | None => True
  | Some row => value row = ""%string \/ eqb (parseFloat (value row)) (Fin 0) = true
  end.

(** ** The option lists

    The effect on [itemType] and [level] that fills the three selects. *)

(** [inRange] of the effect; there [lvl = parseInt(level)] is used without
    a test, so it may be NaN. *)
Definition inRangeNum (lvl : num) (p : Entry) : bool :=
  let lr := BonusPotentialEntry.levelRange p in
  let min := default 0 (lr ≫= levelMin) in
  let max := match lr ≫= levelMax with Some m => Fin m | None => PInf end in
  geb lvl (Fin min) && leb lvl max.

(** [[...new Set(xs)]]: the elements of [xs] in order of first occurrence;
    [seen] holds what the set already contains. *)
Fixpoint distinctFrom (seen xs : list string) : list string :=
  match xs with
  | [] => []
  | x :: r =>
      if existsb (String.eqb x) seen then distinctFrom seen r
      else x :: distinctFrom (x :: seen) r
  end.

(** The order [.sort()] uses without a comparator: strings by their code
    units. *)
Definition strLe (a b : string) : Prop := String.leb a b = true.

#[global] Instance strLe_dec : RelDecision strLe.
Proof. intros a b. unfold strLe. apply _. Defined.

(** [.sort()]: the result is the list in ascending order of [strLe]; the
    method by which the engine gets there is not fixed by the language. *)
Definition sortNames (xs : list string) : list string := merge_sort strLe xs.

Definition optionNames (tierOk : string -> bool) (item : string) (lvl : num)
    (allPots : list Entry) : list string :=
  sortNames
    (distinctFrom []
       (List.map (fun p => cleanPotentialName (BonusPotentialEntry.potential p))
          (List.filter (fun p =>
               String.eqb (BonusPotentialEntry.itemType p) item
               && tierOk (BonusPotentialEntry.tier p)
               && inRangeNum lvl p)
             allPots))).

(** The pair [(line1Options, line23Options)] the effect stores. *)
Definition lineOptions (bonusPotentialsData : list Entry) (s : State)
  : list string * list string :=
  if String.eqb (itemType s) "" || String.eqb (level s) "" then ([], [])
  else
    let lvl := ofInt (parseInt (level s)) in
    (optionNames (fun t => String.eqb t "legendary") (itemType s) lvl
       bonusPotentialsData,
     optionNames (fun t => String.eqb t "unique" || String.eqb t "legendary")
       (itemType s) lvl bonusPotentialsData).

(** ** The stat table *)

(** The [field] argument of [updateStatValue]: ['value'] or ['fd']. *)
Inductive StatField : Type := FieldValue | FieldFd.

(** [{ value: '', fd: '' }] *)
Definition blankRow : StatValue := {| value := ""; fd := "" |}.

(** [{ ...row, [field]: val }] *)
Definition setField (row : StatValue) (field : StatField) (val : string) : StatValue :=
  match field with
  | FieldValue => {| value := val; fd := fd row |}
  | FieldFd => {| value := value row; fd := val |}
  end.

(** [updateStatValue]: the next value of [statValues].  Spreading a missing
    row leaves the other field undefined; it is modelled by the empty text,
    which every reader of the table ([|| '0']) treats alike. *)
Definition updateStatValue (prev : gmap string StatValue)
    (stat : string) (field : StatField) (val : string) : gmap string StatValue :=
  <[stat := setField (default blankRow (prev !! stat)) field val]> prev.

(** The initial value of [statValues]: one row per entry of [STAT_TYPES],
    from [config.defaultStatValues] or blank, then overwritten by the saved
    table for the keys that are [in] the table built so far.  [saved] is
    [None] when nothing was saved.  [key in initial] holds for the rows of
    [initial] and for the names every object inherits ([toString],
    [constructor], ...); [inherited] tells the latter (the special effect of
    assigning to [__proto__] is not told apart). *)
Definition initialStatValues (inherited : string -> bool) (STAT_TYPES : list string)
    (defaults : gmap string StatValue) (saved : option (gmap string StatValue))
  : gmap string StatValue :=
  let initial :=
    fold_left (fun initial s => <[s := default blankRow (defaults !! s)]> initial)
              STAT_TYPES ∅ in
  match saved with
  | Some sv =>
      fold_left (fun initial key =>
          if bool_decide (is_Some (initial !! key)) || inherited key then
            match sv !! key with
            | Some row => <[key := row]> initial
            | None => initial
            end
          else initial)
        (map_to_list sv).*1 initial
  | None => initial
  end.

(** The state after [setStatValues(m)]. *)
Definition withStatValues (s : State) (m : gmap string StatValue) : State :=
  {| itemType := itemType s; level := level s; charLevel := charLevel s;
     line1 := line1 s; line2 := line2 s; line3 := line3 s;
     skillCooldown := skillCooldown s; statValues := m;
     brightResult := brightResult s; glowingResult := glowingResult s |}.

(** ** Clearing the selections

    The component remembers the item type and level of the last render in
    [prevItemType] and [prevLevel]; when either differs from the current
    one, it stores the current ones and sets the three lines to the empty
    text. *)
Record Tracked : Type := {
  prevItemType : string;
  prevLevel : string;
  current : State
}.

Definition clearLines (s : State) : State :=
  {| itemType := itemType s; level := level s; charLevel := charLevel s;
     line1 := ""; line2 := ""; line3 := "";
     skillCooldown := skillCooldown s; statValues := statValues s;
     brightResult := brightResult s; glowingResult := glowingResult s |}.

Definition syncSelection (t : Tracked) : Tracked :=
  if negb (String.eqb (itemType (current t)) (prevItemType t))
     || negb (String.eqb (level (current t)) (prevLevel t))
  then {| prevItemType := itemType (current t); prevLevel := level (current t);
          current := clearLines (current t) |}
  else t.

(** [e] is the first element of [l], in the order of [l], that passes
    [f]. *)
Definition firstWith {A} (f : A -> bool) (l : list A) (e : A) : Prop :=
  exists pre post, l = pre ++ e :: post /\ f e = true
                   /\ forall p, In p pre -> f p = false.

(** The running product of [computeMultiplicativeFd], taken from the left. *)
Definition runningProduct (fds : list num) : num :=
  fold_left (fun product fd => mul product (add (Fin 1) (div fd (Fin 100))))
            fds (Fin 1).

(** ** The aggregator on binary64 numbers

    [computeMultiplicativeFd] with the operations of the program's own
    number type. *)
Module Binary64.

Definition computeMultiplicativeFd (fds : list float) : float :=
  let product :=
    fold_left (fun product fd =>
                 PrimFloat.mul product
                   (PrimFloat.add 1%float (PrimFloat.div fd 100%float)))
              fds 1%float in
  PrimFloat.mul (PrimFloat.sub product 1%float) 100%float.

End Binary64.

(** ** Sample data *)
Module Sample.

Definition config : Config :=
  {| statAliases := {[ "STR per 9 levels"%string := "STR"%string;
                       "Power"%string := "Level Power"%string ]};
     per9Stats := ["STR per 9 levels"%string; "Level Power"%string];
     bright := {| line2UniqueW := 1; line2LegW := 1;
                  line3UniqueW := 1; line3LegW := 1 |};
     glowing := {| line2UniqueW := 8 # 10; line2LegW := 2 # 10;
                   line3UniqueW := 9 # 10; line3LegW := 1 # 10 |} |}.

Definition uniStr12 : Entry :=
  BonusPotentialEntry.mk "STR +12%" "Hat" "unique" (1 # 2) None
    (Some "STR"%string) (Some 9).
Definition legStr12 : Entry :=
  BonusPotentialEntry.mk "STR +12%" "Hat" "legendary" (1 # 2) None
    (Some "STR"%string) (Some 12).
Definition legCooldown : Entry :=
  BonusPotentialEntry.mk "Skill Cooldown -1 sec" "Hat" "legendary" (1 # 2)
    (Some {| levelMin := Some 120; levelMax := None |})
    (Some "Skill Cooldown"%string) (Some 1).
Definition uniPer9 : Entry :=
  BonusPotentialEntry.mk "STR per 9 levels +1" "Hat" "unique" (1 # 2) None
    (Some "STR per 9 levels"%string) (Some 1).
Definition legShoe : Entry :=
  BonusPotentialEntry.mk "STR +12%" "Shoes" "legendary" 1
    (Some {| levelMin := None; levelMax := Some 100 |})
    (Some "STR"%string) (Some 12).
Definition uniPower : Entry :=
  BonusPotentialEntry.mk "Power +3" "Shoes" "unique" 1 None
    (Some "Power"%string) (Some 3).

(** Two entries outside the catalogue: a stat whose magnitude the user
    entered as 0, and a stat with no row in the table. *)
Definition legInt : Entry :=
  BonusPotentialEntry.mk "INT +12%" "Hat" "legendary" (1 # 2) None
    (Some "INT"%string) (Some 12).
Definition legLuk : Entry :=
  BonusPotentialEntry.mk "LUK +12%" "Hat" "legendary" (1 # 2) None
    (Some "LUK"%string) (Some 12).

Definition data : list Entry :=
  [uniStr12; legStr12; legCooldown; uniPer9; legShoe; uniPower].

Definition state : State :=
  {| itemType := "Hat"; level := "160"; charLevel := "260";
     line1 := ""; line2 := ""; line3 := "";
     skillCooldown := true;
     statValues := {[ "STR"%string := {| value := "100"; fd := "5" |};
                      "Level Power"%string := {| value := "50"; fd := "2" |};
                      "INT"%string := {| value := "0"; fd := "7" |} ]};
     brightResult := None; glowingResult := None |}.

Definition withLines (s : State) (l1 l2 l3 : string) : State :=
  {| itemType := itemType s; level := level s; charLevel := charLevel s;
     line1 := l1; line2 := l2; line3 := l3;
     skillCooldown := skillCooldown s; statValues := statValues s;
     brightResult := brightResult s; glowingResult := glowingResult s |}.

Definition withItem (s : State) (item lv : string) : State :=
  {| itemType := item; level := lv; charLevel := charLevel s;
     line1 := line1 s; line2 := line2 s; line3 := line3 s;
     skillCooldown := skillCooldown s; statValues := statValues s;
     brightResult := brightResult s; glowingResult := glowingResult s |}.

(** A configuration whose bright profile weighs unique and legendary 1 to
    1 on line 2 and one half each on line 3. *)
Definition configDouble : Config :=
  {| statAliases := statAliases config; per9Stats := per9Stats config;
     bright := {| line2UniqueW := 1; line2LegW := 1;
                  line3UniqueW := 1 # 2; line3LegW := 1 # 2 |};
     glowing := glowing config |}.

Definition withCooldown (s : State) (on : bool) : State :=
  {| itemType := itemType s; level := level s; charLevel := charLevel s;
     line1 := line1 s; line2 := line2 s; line3 := line3 s;
     skillCooldown := on; statValues := statValues s;
     brightResult := brightResult s; glowingResult := glowingResult s |}.

Definition withCharLevel (s : State) (lv : string) : State :=
  {| itemType := itemType s; level := level s; charLevel := lv;
     line1 := line1 s; line2 := line2 s; line3 := line3 s;
     skillCooldown := skillCooldown s; statValues := statValues s;
     brightResult := brightResult s; glowingResult := glowingResult s |}.

End Sample.

(** * Properties *)

(** Closes a comparison of two closed rationals by evaluation. *)
Ltac qle_eval := apply Qle_bool_iff; vm_compute; reflexivity.

Lemma isWin_spec tCd tFd c : isWin tCd tFd c = true <-> winsAgainst tCd tFd c.
Proof.
  unfold isWin, winsAgainst.
  rewrite orb_true_iff, andb_true_iff, Nat.ltb_lt, Nat.eqb_eq. tauto.
Qed.

Lemma addCombo_isWin tCd tFd c1 c2 c3 t :
  addCombo tCd tFd c1 c2 c3 t
  = if isWin tCd tFd (c1, c2, c3) then t + comboProb (c1, c2, c3) else t.
Proof.
  unfold addCombo, isWin, comboCd, comboFd, comboProb.
  destruct (_ <? _)%nat; [reflexivity|].
  destruct (_ =? _)%nat; [|reflexivity].
  destruct (gtb _ _); reflexivity.
Qed.

Lemma loop3_filter tCd tFd c1 c2 l3 acc :
  fold_left (fun t3 c3 => addCombo tCd tFd c1 c2 c3 t3) l3 acc
  = fold_left Qplus
      (List.map comboProb
         (List.filter (isWin tCd tFd) (List.map (fun c3 => (c1, c2, c3)) l3)))
      acc.
Proof.
  revert acc. induction l3 as [|c3 l3 IH]; intro acc; [reflexivity|].
  cbn [fold_left List.map List.filter].
  rewrite addCombo_isWin, IH.
  destruct (isWin tCd tFd (c1, c2, c3)); reflexivity.
Qed.

Lemma loop2_filter tCd tFd c1 l2 l3 acc :
  fold_left (fun t2 c2 =>
      fold_left (fun t3 c3 => addCombo tCd tFd c1 c2 c3 t3) l3 t2) l2 acc
  = fold_left Qplus
      (List.map comboProb
         (List.filter (isWin tCd tFd)
            (flat_map (fun c2 => List.map (fun c3 => (c1, c2, c3)) l3) l2)))
      acc.
Proof.
  revert acc. induction l2 as [|c2 l2 IH]; intro acc; [reflexivity|].
  cbn [fold_left flat_map].
  rewrite List.filter_app, List.map_app, fold_left_app, <- loop3_filter.
  apply IH.
Qed.

Lemma enumerate_filter tCd tFd l1 l2 l3 :
  enumerate tCd tFd l1 l2 l3
  = total (List.map comboProb (List.filter (isWin tCd tFd) (combos l1 l2 l3))).
Proof.
  unfold enumerate, total, combos. generalize 0 as acc.
  induction l1 as [|c1 l1 IH]; intro acc; [reflexivity|].
  cbn [fold_left flat_map].
  rewrite List.filter_app, List.map_app, fold_left_app, <- loop2_filter.
  apply IH.
Qed.

Lemma in_combos l1 l2 l3 c1 c2 c3 :
  In (c1, c2, c3) (combos l1 l2 l3) <-> In c1 l1 /\ In c2 l2 /\ In c3 l3.
Proof.
  unfold combos. rewrite in_flat_map. split.
  - intros (a & Ha & H). apply in_flat_map in H as (b & Hb & H).
    apply in_map_iff in H as (d & E & Hd). inversion E; subst. tauto.
  - intros (H1 & H2 & H3). exists c1. split; [assumption|].
    apply in_flat_map. exists c2. split; [assumption|].
    apply in_map_iff. exists c3. split; [reflexivity|assumption].
Qed.

(** *** Sums of rationals *)

Lemma fold_left_Qplus_acc l acc : fold_left Qplus l acc == acc + total l.
Proof.
  unfold total. revert acc. induction l as [|a l IH]; intro acc; cbn [fold_left].
  - ring.
  - rewrite (IH (acc + a)), (IH (0 + a)). ring.
Qed.

Lemma total_cons a l : total (a :: l) == a + total l.
Proof. unfold total at 1. cbn [fold_left]. rewrite fold_left_Qplus_acc. ring. Qed.

Lemma total_app l l' : total (l ++ l') == total l + total l'.
Proof.
  unfold total at 1. rewrite fold_left_app, fold_left_Qplus_acc. reflexivity.
Qed.

Lemma total_filter_le {A} (f : A -> Q) (P1 P2 : A -> bool) (l : list A) :
  (forall x, In x l -> 0 <= f x) ->
  (forall x, In x l -> P2 x = true -> P1 x = true) ->
  total (List.map f (List.filter P2 l)) <= total (List.map f (List.filter P1 l)).
Proof.
  induction l as [|a l IH]; intros Hf HP; [apply Qle_refl|].
  assert (IH' : total (List.map f (List.filter P2 l))
                <= total (List.map f (List.filter P1 l))).
  { apply IH; intros; [apply Hf | apply HP]; simpl; auto. }
  assert (Ha : 0 <= f a) by (apply Hf; simpl; auto).
  assert (HPa := HP a (or_introl eq_refl)).
  cbn [List.filter].
  destruct (P2 a), (P1 a); cbn [List.map]; rewrite ?total_cons.
  - lra.
  - discriminate HPa; reflexivity.
  - lra.
  - assumption.
Qed.

Lemma total_filter_nonneg {A} (f : A -> Q) (P : A -> bool) (l : list A) :
  (forall x, In x l -> 0 <= f x) ->
  0 <= total (List.map f (List.filter P l)) <= total (List.map f l).
Proof.
  intro Hf. split.
  - generalize (total_filter_le f P (fun _ => false) l Hf).
    replace (List.filter (fun _ => false) l) with (@nil A).
    + intro H. apply H. discriminate.
    + clear Hf. induction l as [|a l IH]; [reflexivity|exact IH].
  - generalize (total_filter_le f (fun _ => true) P l Hf).
    replace (List.filter (fun _ => true) l) with l.
    + intro H. apply H. reflexivity.
    + clear Hf. induction l as [|a l IH]; [reflexivity|].
      cbn [List.filter]. f_equal. exact IH.
Qed.

(** *** Order on numbers *)


Lemma eqb_Fin x y : eqb (Fin x) (Fin y) = true <-> x == y.
Proof. apply Qeq_bool_iff. Qed.

(** C1.  [calcProb] counts a combination of one candidate per line exactly
    when its cooldown count exceeds the baseline's, or equals it while its
    combined bonus is strictly greater than the baseline's; a combination
    with a smaller cooldown count never counts; a cooldown line carries
    bonus 0 into the combined bonus; and the value returned is the sum of
    the products of the three weighted probabilities over exactly the
    winning combinations of the cross product. *)
Theorem C1_calcProb_sums_winning_combinations
    (config : Config) (data : list Entry) (s : State) (lvl : Z) (w : TierWeights) :
  let tCd := targetCdCount data s lvl in
  let tFd := targetFd config data s lvl in
  let cs := combos (line1Cands config data s lvl)
                   (line2Cands config data s lvl w)
                   (line3Cands config data s lvl w) in
  (forall c1 c2 c3,
      In (c1, c2, c3) cs
      <-> In c1 (line1Cands config data s lvl)
          /\ In c2 (line2Cands config data s lvl w)
          /\ In c3 (line3Cands config data s lvl w))
  /\ (forall c, isWin tCd tFd c = true <-> winsAgainst tCd tFd c)
  /\ (forall c, (comboCd c < tCd)%nat -> isWin tCd tFd c = false)
  /\ (forall p wt, isCd (Some p) = true ->
        Cand.fd (toCand config s p wt) = Fin 0)
  /\ calcProb config data s lvl w
     = total (List.map comboProb (List.filter (isWin tCd tFd) cs)).
Proof.
  intros tCd tFd cs. split; [|split; [|split; [|split]]].
  - intros c1 c2 c3. apply in_combos.
  - intro c. apply isWin_spec.
  - intros c H. unfold isWin.
    apply orb_false_iff. split.
    + apply Nat.ltb_ge. lia.
    + apply andb_false_iff. left. apply Nat.eqb_neq. lia.
  - intros p wt H. unfold toCand. cbn [Cand.fd]. rewrite H. reflexivity.
  - apply enumerate_filter.
Qed.

(** Against a baseline with one cooldown line, a combination of three
    non-cooldown lines does not count, however large its bonus. *)
Lemma C1_witness :
  let st := Sample.withLines Sample.state "Skill Cooldown -1 sec" "STR +12%" "" in
  let c := toCand Sample.config st Sample.uniPer9 1 in
  isWin (targetCdCount Sample.data st 160)
        (targetFd Sample.config Sample.data st 160) (c, c, c) = false.
Proof.
  intros st c.
  apply (proj1 (proj2 (proj2 (C1_calcProb_sums_winning_combinations
                                Sample.config Sample.data st 160
                                (glowing Sample.config))))).
  vm_compute. lia.
Defined.

Section Bounds.

Variables (config : Config) (data : list Entry) (s : State) (lvl : Z).

Lemma legendaryPots_data p : In p (legendaryPots data s lvl) -> In p data.
Proof.
  unfold legendaryPots, allPots. rewrite !filter_In. tauto.
Qed.

Lemma uniquePots_data p : In p (uniquePots data s lvl) -> In p data.
Proof.
  unfold uniquePots, allPots. rewrite !filter_In. tauto.
Qed.

Lemma toCand_nonneg (pots : list Entry) (k : Q) c :
  (forall p, In p pots -> 0 <= BonusPotentialEntry.probability p) ->
  0 <= k ->
  In c (List.map (fun p => toCand config s p k) pots) -> 0 <= Cand.prob c.
Proof.
  intros Hp Hk Hc. apply in_map_iff in Hc as (p & <- & Hin).
  cbn [toCand Cand.prob]. apply Qmult_le_0_compat; auto.
Qed.

Variable w : TierWeights.
Hypothesis Hdata : probsNonneg data.
Hypothesis Hw : weightsNonneg w.

Lemma line1Cands_nonneg c :
  In c (line1Cands config data s lvl) -> 0 <= Cand.prob c.
Proof.
  apply toCand_nonneg; [|lra].
  intros p Hp. apply Hdata, legendaryPots_data, Hp.
Qed.

Lemma line2Cands_nonneg c :
  In c (line2Cands config data s lvl w) -> 0 <= Cand.prob c.
Proof.
  destruct Hw as (H1 & H2 & _).
  unfold line2Cands. rewrite in_app_iff. intros [H|H]; revert H;
    apply toCand_nonneg; try assumption; intros p Hp; apply Hdata;
    [apply uniquePots_data|apply legendaryPots_data]; exact Hp.
Qed.

Lemma line3Cands_nonneg c :
  In c (line3Cands config data s lvl w) -> 0 <= Cand.prob c.
Proof.
  destruct Hw as (_ & _ & H1 & H2).
  unfold line3Cands. rewrite in_app_iff. intros [H|H]; revert H;
    apply toCand_nonneg; try assumption; intros p Hp; apply Hdata;
    [apply uniquePots_data|apply legendaryPots_data]; exact Hp.
Qed.

Lemma comboProb_nonneg c :
  In c (combos (line1Cands config data s lvl) (line2Cands config data s lvl w)
               (line3Cands config data s lvl w)) ->
  0 <= comboProb c.
Proof.
  destruct c as [[c1 c2] c3]. rewrite in_combos. intros (H1 & H2 & H3).
  apply line1Cands_nonneg in H1. apply line2Cands_nonneg in H2.
  apply line3Cands_nonneg in H3. cbn [comboProb].
  repeat apply Qmult_le_0_compat; assumption.
Qed.

End Bounds.

Lemma probsNonneg_check (data : list Entry) :
  forallb (fun p => Qle_bool 0 (BonusPotentialEntry.probability p)) data = true ->
  probsNonneg data.
Proof.
  intros H p Hp. rewrite forallb_forall in H. apply Qle_bool_iff, H, Hp.
Qed.

Lemma weightsNonneg_check (w : TierWeights) :
  Qle_bool 0 (line2UniqueW w) && Qle_bool 0 (line2LegW w)
  && Qle_bool 0 (line3UniqueW w) && Qle_bool 0 (line3LegW w) = true ->
  weightsNonneg w.
Proof.
  rewrite !andb_true_iff, !Qle_bool_iff. unfold weightsNonneg. tauto.
Qed.

(** C2 (as stated, refuted).  With the sample catalogue, whose probabilities
    add up to 1 in each tier, and the profile that weighs unique and
    legendary lines 1 to 1, every combination beats the empty baseline and
    [calcProb] returns 4. *)
Lemma C2_counterexample :
  ~ (0 <= calcProb Sample.config Sample.data Sample.state 160
            (bright Sample.config) <= 1).
Proof.
  intros [_ H]. apply Qle_bool_iff in H. vm_compute in H. discriminate H.
Qed.

(** C2 (amended).  When no catalogue probability and no tier weight is
    negative, the value returned by [calcProb] is at least 0 and at most the
    sum of the products [c1.prob * c2.prob * c3.prob] accumulated, in loop
    order, over every combination of the cross product.  That sum is not
    bounded by 1. *)
Theorem C2_calcProb_between_zero_and_full_sum
    (config : Config) (data : list Entry) (s : State) (lvl : Z) (w : TierWeights) :
  probsNonneg data ->
  weightsNonneg w ->
  0 <= calcProb config data s lvl w
    <= total (List.map comboProb
                (combos (line1Cands config data s lvl)
                        (line2Cands config data s lvl w)
                        (line3Cands config data s lvl w))).
Proof.
  intros Hd Hw. unfold calcProb. rewrite enumerate_filter.
  apply total_filter_nonneg. intros c Hc. eapply comboProb_nonneg; eassumption.
Qed.

Lemma C2_witness :
  0 <= calcProb Sample.config Sample.data
         (Sample.withLines Sample.state "STR +12%" "STR +12%" "STR +12%") 160
         (glowing Sample.config)
    <= total (List.map comboProb
                (combos
                   (line1Cands Sample.config Sample.data
                      (Sample.withLines Sample.state "STR +12%" "STR +12%" "STR +12%")
                      160)
                   (line2Cands Sample.config Sample.data
                      (Sample.withLines Sample.state "STR +12%" "STR +12%" "STR +12%")
                      160 (glowing Sample.config))
                   (line3Cands Sample.config Sample.data
                      (Sample.withLines Sample.state "STR +12%" "STR +12%" "STR +12%")
                      160 (glowing Sample.config)))).
Proof.
  apply (C2_calcProb_between_zero_and_full_sum Sample.config Sample.data
           (Sample.withLines Sample.state "STR +12%" "STR +12%" "STR +12%") 160
           (glowing Sample.config)).
  - apply probsNonneg_check. vm_compute. reflexivity.
  - apply weightsNonneg_check. vm_compute. reflexivity.
Defined.

(** *** Monotonicity in the baseline bonus *)


Lemma sameSettings_cands (config : Config) (data : list Entry) (a b : State)
    (lvl : Z) (w : TierWeights) :
  sameSettings a b ->
  line1Cands config data a lvl = line1Cands config data b lvl
  /\ line2Cands config data a lvl w = line2Cands config data b lvl w
  /\ line3Cands config data a lvl w = line3Cands config data b lvl w.
Proof.
  intros (H1 & H2 & H3 & H4).
  unfold line1Cands, line2Cands, line3Cands, legendaryPots, uniquePots, allPots,
    toCand, potentialToFd, textOr0.
  rewrite H1, H2, H3, H4. repeat split.
Qed.



(** *** The combination aggregator on finite bonuses *)

Lemma product_loop_Fin (bs : list Q) (a : Q) :
  fold_left (fun product fd => mul product (add (Fin 1) (div fd (Fin 100))))
            (List.map Fin bs) (Fin a)
  = Fin (fold_left (fun product b => product * (1 + b / 100)) bs a).
Proof.
  revert a. induction bs as [|b bs IH]; intro a; [reflexivity|].
  cbn [List.map fold_left]. rewrite <- IH. reflexivity.
Qed.

Lemma product_loop_stack (bs : list Q) (a : Q) :
  fold_left (fun product b => product * (1 + b / 100)) bs a == a * stackProduct bs.
Proof.
  revert a. induction bs as [|b bs IH]; intro a; cbn [fold_left stackProduct fold_right].
  - ring.
  - rewrite IH. fold (stackProduct bs). ring.
Qed.

Lemma computeMultiplicativeFd_Fin (bs : list Q) :
  exists q, computeMultiplicativeFd (List.map Fin bs) = Fin q
            /\ q == (stackProduct bs - 1) * 100.
Proof.
  unfold computeMultiplicativeFd. rewrite product_loop_Fin.
  eexists. split; [reflexivity|].
  rewrite product_loop_stack. ring.
Qed.

Lemma stackProduct_zero (l1 l2 : list Q) :
  stackProduct (l1 ++ 0 :: l2) == stackProduct (l1 ++ l2).
Proof.
  induction l1 as [|b l1 IH]; cbn [List.app stackProduct fold_right].
  - fold (stackProduct l2). field.
  - fold (stackProduct (l1 ++ 0 :: l2)) (stackProduct (l1 ++ l2)).
    rewrite IH. reflexivity.
Qed.

(** C5 (as stated, refuted).  On binary64 numbers the aggregator gives
    5.0000000000000044 for the one-element sequence 5, and two different
    numbers for the sequences 1, 1, 8 and 1, 8, 1. *)
Lemma C5_counterexample :
  ~ (PrimFloat.eqb (Binary64.computeMultiplicativeFd [5%float]) 5%float = true)
  /\ ~ (PrimFloat.eqb (Binary64.computeMultiplicativeFd [1; 1; 8]%float)
                      (Binary64.computeMultiplicativeFd [1; 8; 1]%float) = true).
Proof. split; vm_compute; discriminate. Qed.

(** C5 (amended).  [computeMultiplicativeFd] is [(P - 1) * 100] where [P]
    is the product of the factors [1 + b_i/100] taken from the left, one
    factor per bonus; it gives 0 on the empty sequence; and a bonus of 0 is
    a neutral factor: inserting or removing one anywhere in the sequence
    does not change the result. *)
Theorem C5_computeMultiplicativeFd_left_product_zero_neutral
  : (forall fds, computeMultiplicativeFd fds
                 = mul (sub (runningProduct fds) (Fin 1)) (Fin 100))
    /\ runningProduct [] = Fin 1
    /\ (forall fds fd, runningProduct (fds ++ [fd])
                       = mul (runningProduct fds) (add (Fin 1) (div fd (Fin 100))))
    /\ eqb (computeMultiplicativeFd []) (Fin 0) = true
    /\ PrimFloat.eqb (Binary64.computeMultiplicativeFd []) 0%float = true
    /\ (forall l1 l2,
          eqb (computeMultiplicativeFd (List.map Fin (l1 ++ 0 :: l2)))
              (computeMultiplicativeFd (List.map Fin (l1 ++ l2))) = true).
Proof.
  split; [|split; [|split; [|split; [|split]]]].
  - reflexivity.
  - reflexivity.
  - intros fds fd. unfold runningProduct. rewrite fold_left_app. reflexivity.
  - reflexivity.
  - vm_compute. reflexivity.
  - intros l1 l2.
    destruct (computeMultiplicativeFd_Fin (l1 ++ 0 :: l2)) as (q & -> & E).
    destruct (computeMultiplicativeFd_Fin (l1 ++ l2)) as (q' & -> & E').
    apply eqb_Fin. rewrite E, E', stackProduct_zero. reflexivity.
Qed.

(** *** The percentile estimator *)

(** C3.  [buildResult] at a success probability above 1.  The four
    percentiles come from the [p >= 1] branch of [geomPercentile] and are 1;
    [avgCubes] has no such branch and is [1/p]: 0.5 at [p = 2].  The sample
    catalogue with the profile of [Sample.configDouble] and no baseline
    reaches this through [handleCalculate]: [calcProb] returns 2. *)
Theorem C3_avgCubes_not_guarded_above_one :
  (eqb (avgCubes (buildResult 2)) (Fin (1 # 2)) = true
   /\ p25 (buildResult 2) = Fin 1 /\ p50 (buildResult 2) = Fin 1
   /\ p75 (buildResult 2) = Fin 1 /\ p90 (buildResult 2) = Fin 1)
  /\ calcProb Sample.configDouble Sample.data Sample.state 160
       (bright Sample.configDouble) == 2
  /\ exists r,
       brightResult (handleCalculate Sample.configDouble Sample.data Sample.state)
       = Some r
       /\ eqb (avgCubes r) (Fin (1 # 2)) = true
       /\ p25 r = Fin 1 /\ p50 r = Fin 1 /\ p75 r = Fin 1 /\ p90 r = Fin 1.
Proof.
  assert (G : forall x, Qle_bool x 0 = false -> Qle_bool 1 x = true ->
              forall q, geomPercentile x q = Fin 1).
  { intros x H0 H1 q. unfold geomPercentile. rewrite H0, H1. reflexivity. }
  split; [|split].
  - split; [vm_compute; reflexivity|].
    repeat split; apply G; reflexivity.
  - apply Qeq_bool_iff. vm_compute. reflexivity.
  - eexists. split; [reflexivity|].
    cbn [avgCubes p25 p50 p75 p90 buildResult].
    split; [vm_compute; reflexivity|].
    repeat split; apply G; vm_compute; reflexivity.
Qed.

(** *** Stat conversion *)

Lemma div_by_zero_not_finite (x : num) : forall q, div x (Fin 0) <> Fin q.
Proof.
  intro q. destruct x as [a| | |]; cbn; try discriminate.
  destruct (a ?= 0); discriminate.
Qed.

Lemma mul_not_finite (a b : num) :
  (forall q, b <> Fin q) -> forall q, mul a b <> Fin q.
Proof.
  intros Hb q. destruct a as [x| | |], b as [y| | |]; cbn; try discriminate.
  - exfalso. exact (Hb y eq_refl).
  - destruct (x ?= 0); discriminate.
  - destruct (0 ?= x); discriminate.
  - exfalso. exact (Hb y eq_refl).
  - exfalso. exact (Hb y eq_refl).
Qed.

Lemma textOr0_zero (config : Config) (s : State) (st : string) :
  magnitudeZeroOrAbsent config s st ->
  eqb (observedMagnitude config s st) (Fin 0) = true.
Proof.
  unfold magnitudeZeroOrAbsent, observedMagnitude, textOr0.
  destruct (statValues s !! canonical config st) as [row|]; [|reflexivity].
  intros [H|H].
  - rewrite H. reflexivity.
  - destruct (String.eqb (value row) ""); [reflexivity|exact H].
Qed.

(** C6.  [potentialToFd] returns the number 0 for every entry whose
    alias-resolved stat has a magnitude of 0 or none in the table, whatever
    the entry's [statValue]; the quotient by the magnitude is not what it
    returns, since that quotient by 0, and any product with it, is never a
    finite number. *)
Theorem C6_potentialToFd_zero_magnitude
    (config : Config) (s : State) (entry : Entry) :
  (forall st, BonusPotentialEntry.statType entry = Some st ->
              magnitudeZeroOrAbsent config s st) ->
  potentialToFd config s entry = Fin 0
  /\ (forall effectiveValue userFd q,
        mul effectiveValue (div userFd (Fin 0)) <> Fin q).
Proof.
  intro H. split.
  - unfold potentialToFd.
    destruct (BonusPotentialEntry.statType entry) as [st|]; [|reflexivity].
    destruct (BonusPotentialEntry.statValue entry) as [sv|]; [|reflexivity].
    destruct (String.eqb st ""); [reflexivity|].
    destruct (isSkillCooldown st); [reflexivity|].
    assert (E := textOr0_zero config s st (H st eq_refl)).
    unfold observedMagnitude, canonical in E. unfold STAT_ALIASES.
    rewrite E. reflexivity.
  - intros ev x q. apply mul_not_finite, div_by_zero_not_finite.
Qed.

Lemma C6_witness :
  potentialToFd Sample.config Sample.state Sample.legInt = Fin 0
  /\ potentialToFd Sample.config Sample.state Sample.legLuk = Fin 0.
Proof.
  split.
  - apply (C6_potentialToFd_zero_magnitude Sample.config Sample.state Sample.legInt).
    intros st E. injection E as <-. vm_compute. right. reflexivity.
  - apply (C6_potentialToFd_zero_magnitude Sample.config Sample.state Sample.legLuk).
    intros st E. injection E as <-. vm_compute. exact I.
Defined.

Lemma per9_member (config : Config) (st : string) :
  bool_decide (st ∈ PER_9_STATS config) = true <-> In st (per9Stats config).
Proof.
  rewrite bool_decide_eq_true. unfold PER_9_STATS.
  rewrite elem_of_list_to_set. apply list_elem_of_In.
Qed.

Lemma floor_div9 (n : Z) :
  floor (div (ofInt (Some n)) (Fin 9)) = Fin (inject_Z (n / 9)).
Proof.
  unfold ofInt, div. change (Qeq_bool 9 0) with false. cbn [floor].
  do 2 f_equal. unfold Qfloor, Qdiv, Qmult, Qinv, inject_Z. cbn [Qnum Qden].
  rewrite Z.mul_1_r. reflexivity.
Qed.

(** C10.  In [potentialToFd] the alias table serves the table lookup only.
    For an entry with raw stat [st] (not empty) and value [sv]: a raw
    [st] equal to the cooldown stat gives 0 whatever its alias; otherwise,
    with a magnitude different from 0 under the canonical name, the result
    is [sv * floor (charLevel / 9) * (bonus / magnitude)] exactly when the
    raw [st] is in the per-9 list, and [sv * (bonus / magnitude)] exactly
    when it is not; whether the canonical name is in the list, or is the
    cooldown stat, plays no part. *)
Theorem C10_alias_only_in_lookup
    (config : Config) (s : State) (entry : Entry) (st : string) (sv : Q) :
  BonusPotentialEntry.statType entry = Some st ->
  BonusPotentialEntry.statValue entry = Some sv ->
  st <> ""%string ->
  let level9 := floor (div (ofInt (parseInt (charLevel s))) (Fin 9)) in
  let ratio := div (observedBonusPercent config s st) (observedMagnitude config s st) in
  (st = "Skill Cooldown"%string -> potentialToFd config s entry = Fin 0)
  /\ (st <> "Skill Cooldown"%string ->
      eqb (observedMagnitude config s st) (Fin 0) = false ->
      (In st (per9Stats config) ->
         potentialToFd config s entry = mul (mul (Fin sv) level9) ratio)
      /\ (~ In st (per9Stats config) ->
         potentialToFd config s entry = mul (Fin sv) ratio))
  /\ (forall n, parseInt (charLevel s) = Some n -> level9 = Fin (inject_Z (n / 9))).
Proof.
  intros Hst Hsv Hne level9 ratio.
  assert (E0 : String.eqb st "" = false) by (apply String.eqb_neq, Hne).
  unfold potentialToFd. rewrite Hst, Hsv, E0.
  split; [|split].
  - intros ->. reflexivity.
  - intros Hcd Hmag.
    assert (E1 : isSkillCooldown st = false) by (apply String.eqb_neq, Hcd).
    rewrite E1. unfold observedMagnitude, canonical in Hmag.
    unfold STAT_ALIASES. rewrite Hmag.
    split; intro Hin.
    + rewrite (proj2 (per9_member config st) Hin). reflexivity.
    + destruct (bool_decide (st ∈ PER_9_STATS config)) eqn:B; [|reflexivity].
      exfalso. apply Hin, per9_member, B.
  - intros n Hn. unfold level9. rewrite Hn. apply floor_div9.
Qed.

(** Raw stat in the per-9 list, canonical name outside it: scaled by
    [floor (260 / 9) = 28].  Raw stat outside the list, canonical name in
    it: not scaled. *)
Lemma C10_witness :
  eqb (potentialToFd Sample.config Sample.state Sample.uniPer9)
      (Fin (1 * 28 * (5 / 100))) = true
  /\ eqb (potentialToFd Sample.config Sample.state Sample.uniPower)
         (Fin (3 * (2 / 50))) = true.
Proof.
  split.
  - rewrite (proj1 (proj1 (proj2 (C10_alias_only_in_lookup Sample.config Sample.state
               Sample.uniPer9 "STR per 9 levels" 1 eq_refl eq_refl
               ltac:(discriminate)))
               ltac:(discriminate) ltac:(vm_compute; reflexivity))
               ltac:(left; reflexivity)).
    vm_compute. reflexivity.
  - rewrite (proj2 (proj1 (proj2 (C10_alias_only_in_lookup Sample.config Sample.state
               Sample.uniPower "Power" 3 eq_refl eq_refl
               ltac:(discriminate)))
               ltac:(discriminate) ltac:(vm_compute; reflexivity))
               ltac:(intros [H|[H|[]]]; discriminate H)).
    vm_compute. reflexivity.
Defined.

(** *** Catalogue access *)

Lemma geb_Fin (x y : Q) : geb (Fin x) (Fin y) = true <-> y <= x.
Proof. apply Qle_bool_iff. Qed.

Lemma inRange_spec (lvl : Z) (p : Entry) :
  inRange lvl p = true
  <-> default 0 (BonusPotentialEntry.levelRange p ≫= levelMin) <= inject_Z lvl
      /\ match BonusPotentialEntry.levelRange p ≫= levelMax with
         | Some m => inject_Z lvl <= m
         | None => True
         end.
Proof.
  unfold inRange. rewrite andb_true_iff, geb_Fin.
  destruct (BonusPotentialEntry.levelRange p ≫= levelMax) as [m|]; cbn [leb].
  - rewrite Qle_bool_iff. tauto.
  - tauto.
Qed.

Lemma allPots_spec (data : list Entry) (s : State) (lvl : Z) (p : Entry) :
  In p (allPots data s lvl) <-> In p data /\ eligibleSpec (itemType s) lvl p.
Proof.
  unfold allPots, eligibleSpec. rewrite filter_In.
  destruct (String.eqb_spec (BonusPotentialEntry.itemType p) (itemType s)) as [E|E];
    cbn [negb].
  - rewrite inRange_spec. tauto.
  - split; [intros [_ H]; discriminate H|tauto].
Qed.

(** C8.  The eligible entries are the catalogue filtered, in catalogue
    order, by: the entry's item type equals the requested one and its level
    range contains the item level, with a missing lower bound read as 0 and
    a missing upper bound as no bound. *)
Theorem C8_allPots_is_the_eligible_filter
    (data : list Entry) (s : State) (lvl : Z) :
  exists keep : Entry -> bool,
    (forall p, keep p = true <-> eligibleSpec (itemType s) lvl p)
    /\ allPots data s lvl = List.filter keep data
    /\ (forall p, In p (allPots data s lvl)
                  <-> In p data /\ eligibleSpec (itemType s) lvl p).
Proof.
  exists (fun p =>
            if negb (String.eqb (BonusPotentialEntry.itemType p) (itemType s))
            then false else inRange lvl p).
  split; [|split].
  - intro p. unfold eligibleSpec.
    destruct (String.eqb_spec (BonusPotentialEntry.itemType p) (itemType s)) as [E|E];
      cbn [negb].
    + rewrite inRange_spec. tauto.
    + split; [discriminate|tauto].
  - reflexivity.
  - apply allPots_spec.
Qed.

(** C9.  When some eligible entry of tier legendary carries the display
    name [n] (after [cleanPotentialName]), each baseline line whose
    selection is [n] resolves to a legendary entry of that name, the first
    one in catalogue order, also when entries of other tiers with the same
    name come earlier; this entry is the one the baseline bonus and
    cooldown count are computed from. *)
Theorem C9_baseline_lookup_prefers_legendary
    (config : Config) (data : list Entry) (s : State) (lvl : Z) (n : string) :
  (exists p, In p (allPots data s lvl) /\ nameIs n p = true
             /\ BonusPotentialEntry.tier p = "legendary"%string) ->
  exists e,
    In e (allPots data s lvl) /\ nameIs n e = true
    /\ BonusPotentialEntry.tier e = "legendary"%string
    /\ List.find (fun p => nameIs n p
                           && String.eqb (BonusPotentialEntry.tier p) "legendary")
                 (allPots data s lvl) = Some e
    /\ (line1 s = n -> sel1 data s lvl = Some e
                       /\ nth 0 (targetFds config data s lvl) NaN
                          = if isCd (Some e) then Fin 0 else potentialToFd config s e)
    /\ (line2 s = n -> sel2 data s lvl = Some e
                       /\ nth 1 (targetFds config data s lvl) NaN
                          = if isCd (Some e) then Fin 0 else potentialToFd config s e)
    /\ (line3 s = n -> sel3 data s lvl = Some e
                       /\ nth 2 (targetFds config data s lvl) NaN
                          = if isCd (Some e) then Fin 0 else potentialToFd config s e).
Proof.
  intros (p & Hin & Hname & Htier).
  destruct (List.find (fun p => nameIs n p
                                && String.eqb (BonusPotentialEntry.tier p) "legendary")
                      (allPots data s lvl)) as [e|] eqn:F.
  - destruct (find_some _ _ F) as [He Hp].
    apply andb_true_iff in Hp as [Hn Ht]. apply String.eqb_eq in Ht.
    assert (Hfind : findPot data s lvl n "legendary" = Some e).
    { unfold findPot. rewrite F. reflexivity. }
    assert (Hfd : forall sel, sel = Some e ->
              match sel with
              | Some e0 => if negb (isCd sel) then potentialToFd config s e0 else Fin 0
              | None => Fin 0
              end = if isCd (Some e) then Fin 0 else potentialToFd config s e).
    { intros sel ->. destruct (isCd (Some e)); reflexivity. }
    exists e. split; [exact He|]. split; [exact Hn|]. split; [exact Ht|].
    split; [reflexivity|].
    split; [|split]; intro Hline.
    + assert (Hs : sel1 data s lvl = Some e) by (unfold sel1; rewrite Hline; exact Hfind).
      split; [exact Hs|]. unfold targetFds. cbn [List.map nth]. apply Hfd, Hs.
    + assert (Hs : sel2 data s lvl = Some e)
        by (unfold sel2; rewrite Hline, Hfind; reflexivity).
      split; [exact Hs|]. unfold targetFds. cbn [List.map nth]. apply Hfd, Hs.
    + assert (Hs : sel3 data s lvl = Some e)
        by (unfold sel3; rewrite Hline, Hfind; reflexivity).
      split; [exact Hs|]. unfold targetFds. cbn [List.map nth]. apply Hfd, Hs.
  - exfalso. assert (H := find_none _ _ F p Hin). cbn beta in H.
    rewrite Hname, Htier in H. discriminate H.
Qed.

(** The unique entry named "STR +12%" precedes the legendary one in the
    sample catalogue; all three lines resolve to the legendary one. *)
Lemma C9_witness :
  exists e,
    BonusPotentialEntry.tier e = "legendary"%string
    /\ sel2 Sample.data
         (Sample.withLines Sample.state "STR +12%" "STR +12%" "STR +12%") 160
       = Some e.
Proof.
  destruct (C9_baseline_lookup_prefers_legendary Sample.config Sample.data
              (Sample.withLines Sample.state "STR +12%" "STR +12%" "STR +12%")
              160 "STR +12%")
    as (e & _ & _ & Ht & _ & _ & H2 & _).
  - exists Sample.legStr12. split; [|split].
    + vm_compute. right. left. reflexivity.
    + vm_compute. reflexivity.
    + reflexivity.
  - exists e. split; [exact Ht|]. apply H2. reflexivity.
Defined.

(** *** The guard of [handleCalculate] *)

Lemma calcProb_no_entries (config : Config) (data : list Entry) (s : State)
    (lvl : Z) (w : TierWeights) :
  allPots data s lvl = [] -> calcProb config data s lvl w = 0.
Proof.
  intro H. unfold calcProb, line1Cands, legendaryPots. rewrite H. reflexivity.
Qed.

Lemma allPots_negative_level (data : list Entry) (s : State) (lvl : Z) :
  (lvl < 0)%Z ->
  (forall p, In p data ->
             0 <= default 0 (BonusPotentialEntry.levelRange p ≫= levelMin)) ->
  allPots data s lvl = [].
Proof.
  intros Hl Hmin. destruct (allPots data s lvl) as [|p l] eqn:E; [reflexivity|].
  exfalso. assert (Hp : In p (allPots data s lvl)) by (rewrite E; left; reflexivity).
  apply allPots_spec in Hp as (Hd & _ & Hlo & _).
  specialize (Hmin p Hd).
  assert (Hneg : inject_Z lvl < 0).
  { change 0 with (inject_Z 0). rewrite <- Zlt_Qlt. exact Hl. }
  lra.
Qed.

Lemma buildResult_zero :
  probability (buildResult 0) == 0
  /\ avgCubes (buildResult 0) = PInf
  /\ p25 (buildResult 0) = PInf /\ p50 (buildResult 0) = PInf
  /\ p75 (buildResult 0) = PInf /\ p90 (buildResult 0) = PInf.
Proof. repeat split. Qed.

(** C7 (as stated, refuted).  With an empty item type nothing is computed:
    after [handleCalculate] there is no result at all, hence none with
    success probability 0. *)
Lemma C7_counterexample :
  ~ (exists r,
       brightResult (handleCalculate Sample.config Sample.data
                       (Sample.withItem Sample.state "" "160")) = Some r
       /\ probability r == 0).
Proof.
  intros (r & H & _). vm_compute in H. discriminate H.
Qed.

(** C7 (amended).  When the item type is empty or the item level does not
    parse to a number, [handleCalculate] returns at its guard: the state,
    with whatever results it held, is unchanged.  When both are present and
    no catalogue entry is eligible - as for every negative item level when
    no lower bound in the catalogue is negative - both results are produced
    from an enumeration that yields exactly 0: probability 0, average and
    percentiles infinite. *)
Theorem C7_handleCalculate_guard_and_empty_catalogue
    (config : Config) (data : list Entry) (s : State) :
  (itemType s = ""%string \/ parseInt (level s) = None ->
     handleCalculate config data s = s)
  /\ (forall lvl,
        parseInt (level s) = Some lvl -> itemType s <> ""%string ->
        allPots data s lvl = [] ->
        brightResult (handleCalculate config data s) = Some (buildResult 0)
        /\ glowingResult (handleCalculate config data s) = Some (buildResult 0)
        /\ probability (buildResult 0) == 0
        /\ avgCubes (buildResult 0) = PInf
        /\ p25 (buildResult 0) = PInf /\ p50 (buildResult 0) = PInf
        /\ p75 (buildResult 0) = PInf /\ p90 (buildResult 0) = PInf)
  /\ (forall lvl,
        (lvl < 0)%Z ->
        (forall p, In p data ->
                   0 <= default 0 (BonusPotentialEntry.levelRange p ≫= levelMin)) ->
        allPots data s lvl = []).
Proof.
  split; [|split].
  - unfold handleCalculate. intros [H|H].
    + rewrite H. destruct (parseInt (level s)); reflexivity.
    + rewrite H. reflexivity.
  - intros lvl Hl Hi Hempty. unfold handleCalculate. rewrite Hl.
    destruct (String.eqb_spec (itemType s) "") as [E|_]; [contradiction|].
    cbn [brightResult glowingResult].
    rewrite !(calcProb_no_entries config data s lvl _ Hempty).
    split; [reflexivity|]. split; [reflexivity|]. exact buildResult_zero.
  - intros lvl. apply allPots_negative_level.
Qed.

Lemma C7_witness :
  handleCalculate Sample.config Sample.data (Sample.withItem Sample.state "Hat" "abc")
  = Sample.withItem Sample.state "Hat" "abc"
  /\ brightResult (handleCalculate Sample.config Sample.data
                     (Sample.withItem Sample.state "Hat" "-5"))
     = Some (buildResult 0).
Proof.
  split.
  - apply (proj1 (C7_handleCalculate_guard_and_empty_catalogue Sample.config Sample.data
                    (Sample.withItem Sample.state "Hat" "abc"))).
    right. vm_compute. reflexivity.
  - apply (proj1 (proj2 (C7_handleCalculate_guard_and_empty_catalogue Sample.config
                           Sample.data (Sample.withItem Sample.state "Hat" "-5")))
             (-5)%Z).
    + vm_compute. reflexivity.
    + discriminate.
    + vm_compute. reflexivity.
Defined.

(** * Further properties of the engine *)

(** *** Baseline lookup *)

Lemma findPot_None (data : list Entry) (s : State) (lvl : Z) (n t : string) :
  findPot data s lvl n t = None
  <-> forall p, In p (allPots data s lvl) -> nameIs n p = false.
Proof.
  unfold findPot. split.
  - intros H p Hp.
    destruct (List.find _ (allPots data s lvl)) as [e|] eqn:F1; [discriminate H|].
    cbn [orElse] in H. exact (find_none _ _ H p Hp).
  - intro H.
    destruct (List.find (fun p => nameIs n p
                                  && String.eqb (BonusPotentialEntry.tier p) t)
                (allPots data s lvl)) as [e|] eqn:F1.
    + destruct (find_some _ _ F1) as [He Hn]. apply andb_true_iff in Hn as [Hn _].
      rewrite (H e He) in Hn. discriminate Hn.
    + cbn [orElse].
      destruct (List.find (fun p => nameIs n p) (allPots data s lvl)) as [e|] eqn:F2;
        [|reflexivity].
      destruct (find_some _ _ F2) as [He Hn]. rewrite (H e He) in Hn. discriminate Hn.
Qed.

Lemma second_lookup_never_decides (data : list Entry) (s : State) (lvl : Z) (n : string) :
  orElse (findPot data s lvl n "legendary") (findPot data s lvl n "unique")
  = findPot data s lvl n "legendary".
Proof.
  destruct (findPot data s lvl n "legendary") as [e|] eqn:F; [reflexivity|].
  cbn [orElse]. apply findPot_None. apply (proj1 (findPot_None _ _ _ _ _) F).
Qed.

Lemma find_firstWith {A} (f : A -> bool) (l : list A) (e : A) :
  List.find f l = Some e -> firstWith f l e.
Proof.
  induction l as [|a l IH]; [discriminate|]. cbn [List.find].
  destruct (f a) eqn:E.
  - intro H. injection H as <-. exists [], l. repeat split; [exact E|intros p []].
  - intro H. destruct (IH H) as (pre & post & -> & He & Hpre).
    exists (a :: pre), post. repeat split; [exact He|].
    intros p [<-|Hp]; [exact E|apply Hpre, Hp].
Qed.

(** The lookup of a baseline line finds an entry as soon as an eligible
    entry carries the name, whatever its tier.  The entry found has the
    name; it is the first eligible entry, in catalogue order, with the name
    and the requested tier, or, when no eligible entry of that name has the
    tier, the first eligible entry with the name.  Nothing is found exactly
    when no eligible entry has the name.  So for lines 2 and 3 the second
    lookup, for tier unique, never decides: [sel2] and [sel3] are the
    lookups for tier legendary. *)
Theorem findPot_any_tier_fallback
    (data : list Entry) (s : State) (lvl : Z) :
  (forall n t e,
      findPot data s lvl n t = Some e ->
      In e (allPots data s lvl) /\ nameIs n e = true
      /\ ((BonusPotentialEntry.tier e = t
           /\ firstWith (fun p => nameIs n p
                                  && String.eqb (BonusPotentialEntry.tier p) t)
                        (allPots data s lvl) e)
          \/ ((forall p, In p (allPots data s lvl) -> nameIs n p = true ->
                         BonusPotentialEntry.tier p <> t)
              /\ firstWith (fun p => nameIs n p) (allPots data s lvl) e)))
  /\ (forall n t,
        findPot data s lvl n t = None
        <-> forall p, In p (allPots data s lvl) -> nameIs n p = false)
  /\ sel2 data s lvl = findPot data s lvl (line2 s) "legendary"
  /\ sel3 data s lvl = findPot data s lvl (line3 s) "legendary".
Proof.
  split; [|split; [|split]].
  - intros n t e H. unfold findPot in H.
    destruct (List.find (fun p => nameIs n p
                                  && String.eqb (BonusPotentialEntry.tier p) t)
                (allPots data s lvl)) as [e1|] eqn:F1.
    + cbn [orElse] in H. injection H as <-.
      destruct (find_some _ _ F1) as [He Hn]. apply andb_true_iff in Hn as [Hn Ht].
      apply String.eqb_eq in Ht.
      split; [exact He|]. split; [exact Hn|]. left.
      split; [exact Ht|apply find_firstWith, F1].
    + cbn [orElse] in H. destruct (find_some _ _ H) as [He Hn].
      split; [exact He|]. split; [exact Hn|]. right.
      split; [|apply find_firstWith, H].
      intros p Hp Hpn Ht.
      assert (Hf := find_none _ _ F1 p Hp). cbn beta in Hf.
      rewrite Hpn, Ht, String.eqb_refl in Hf. discriminate Hf.
  - intros n t. apply findPot_None.
  - apply second_lookup_never_decides.
  - apply second_lookup_never_decides.
Qed.

(** In the sample catalogue the only shoe entry named "Power +3" is of tier
    unique; the lookup for tier legendary returns it. *)
Lemma findPot_any_tier_fallback_witness :
  let s := Sample.withItem Sample.state "Shoes" "50" in
  In Sample.uniPower (allPots Sample.data s 50)
  /\ nameIs "Power +3" Sample.uniPower = true
  /\ ((BonusPotentialEntry.tier Sample.uniPower = "legendary"%string
       /\ firstWith (fun p => nameIs "Power +3" p
                              && String.eqb (BonusPotentialEntry.tier p) "legendary")
                    (allPots Sample.data s 50) Sample.uniPower)
      \/ ((forall p, In p (allPots Sample.data s 50) -> nameIs "Power +3" p = true ->
                     BonusPotentialEntry.tier p <> "legendary"%string)
          /\ firstWith (fun p => nameIs "Power +3" p)
                       (allPots Sample.data s 50) Sample.uniPower)).
Proof.
  intro s.
  apply (proj1 (findPot_any_tier_fallback Sample.data s 50)
           "Power +3"%string "legendary"%string Sample.uniPower).
  vm_compute. reflexivity.
Defined.

(** A baseline none of whose three lines names an eligible entry (as when
    nothing is selected) has cooldown count 0 and combined bonus 0. *)
Theorem unselected_baseline_is_zero
    (config : Config) (data : list Entry) (s : State) (lvl : Z) :
  (forall p, In p (allPots data s lvl) ->
     nameIs (line1 s) p = false /\ nameIs (line2 s) p = false
     /\ nameIs (line3 s) p = false) ->
  targetCdCount data s lvl = 0%nat
  /\ eqb (targetFd config data s lvl) (Fin 0) = true.
Proof.
  intro H.
  assert (H1 : sel1 data s lvl = None).
  { apply findPot_None. intros p Hp. apply (H p Hp). }
  assert (H2 : sel2 data s lvl = None).
  { unfold sel2. rewrite second_lookup_never_decides.
    apply findPot_None. intros p Hp. apply (H p Hp). }
  assert (H3 : sel3 data s lvl = None).
  { unfold sel3. rewrite second_lookup_never_decides.
    apply findPot_None. intros p Hp. apply (H p Hp). }
  unfold targetCdCount, targetFd, targetFds. rewrite H1, H2, H3.
  split; [destruct (skillCooldown s); reflexivity|reflexivity].
Qed.

Lemma unselected_baseline_is_zero_witness :
  targetCdCount Sample.data Sample.state 160 = 0%nat
  /\ eqb (targetFd Sample.config Sample.data Sample.state 160) (Fin 0) = true.
Proof.
  apply (unselected_baseline_is_zero Sample.config Sample.data Sample.state 160).
  intros p Hp. vm_compute in Hp.
  destruct Hp as [<-|[<-|[<-|[<-|[]]]]]; vm_compute; auto.
Defined.

(** *** The enumeration *)

Lemma toCand_cd_off (config : Config) (s : State) (p : Entry) (k : Q) :
  skillCooldown s = false -> Cand.cd (toCand config s p k) = 0%nat.
Proof. intro H. unfold toCand. cbn [Cand.cd]. rewrite H. reflexivity. Qed.

Lemma cands_cd_off (config : Config) (data : list Entry) (s : State) (lvl : Z)
    (w : TierWeights) (c : Cand) :
  skillCooldown s = false ->
  In c (line1Cands config data s lvl) \/ In c (line2Cands config data s lvl w)
  \/ In c (line3Cands config data s lvl w) ->
  Cand.cd c = 0%nat.
Proof.
  intros Hoff. unfold line1Cands, line2Cands, line3Cands.
  rewrite !in_app_iff, !in_map_iff.
  intros [H|[[H|H]|[H|H]]]; destruct H as (p & <- & _); apply toCand_cd_off, Hoff.
Qed.

(** With the cooldown checkbox off, cooldown lines count for nothing: the
    baseline's cooldown count is 0, every candidate has cooldown count 0,
    and [calcProb] is the sum over the combinations whose combined bonus is
    strictly greater than the baseline's. *)
Theorem cooldown_off_compares_bonus_only
    (config : Config) (data : list Entry) (s : State) (lvl : Z) (w : TierWeights) :
  skillCooldown s = false ->
  let cs := combos (line1Cands config data s lvl) (line2Cands config data s lvl w)
                   (line3Cands config data s lvl w) in
  targetCdCount data s lvl = 0%nat
  /\ (forall c, In c cs -> comboCd c = 0%nat)
  /\ calcProb config data s lvl w
     = total (List.map comboProb
                (List.filter (fun c => gtb (comboFd c) (targetFd config data s lvl)) cs)).
Proof.
  intros Hoff cs.
  assert (Ht : targetCdCount data s lvl = 0%nat)
    by (unfold targetCdCount; rewrite Hoff; reflexivity).
  assert (Hc : forall c, In c cs -> comboCd c = 0%nat).
  { intros [[c1 c2] c3] Hin. apply in_combos in Hin as (H1 & H2 & H3).
    cbn [comboCd].
    rewrite (cands_cd_off config data s lvl w c1), (cands_cd_off config data s lvl w c2),
      (cands_cd_off config data s lvl w c3); auto. }
  split; [exact Ht|]. split; [exact Hc|].
  unfold calcProb. rewrite enumerate_filter, Ht. fold cs. f_equal. f_equal.
  apply filter_ext_in. intros c Hin. unfold isWin. rewrite (Hc c Hin). reflexivity.
Qed.

(** A cooldown line held as the baseline, checkbox off: cooldown count 0. *)
Lemma cooldown_off_compares_bonus_only_witness :
  targetCdCount Sample.data
    (Sample.withCooldown
       (Sample.withLines Sample.state "Skill Cooldown -1 sec" "" "") false) 160
  = 0%nat.
Proof.
  apply (cooldown_off_compares_bonus_only Sample.config Sample.data _ 160
           (glowing Sample.config)).
  reflexivity.
Defined.

Lemma filter_none {A} (f : A -> bool) (l : list A) :
  (forall x, In x l -> f x = false) -> List.filter f l = [].
Proof.
  induction l as [|a l IH]; intro H; [reflexivity|]. cbn [List.filter].
  rewrite (H a (or_introl eq_refl)). apply IH. intros x Hx. apply H. right. exact Hx.
Qed.

(** Ties lose.  When no combination has more cooldown lines than the
    baseline and none has a combined bonus strictly greater than the
    baseline's, [calcProb] returns exactly 0. *)
Theorem calcProb_zero_when_nothing_beats_baseline
    (config : Config) (data : list Entry) (s : State) (lvl : Z) (w : TierWeights) :
  (forall c, In c (combos (line1Cands config data s lvl) (line2Cands config data s lvl w)
                          (line3Cands config data s lvl w)) ->
      (comboCd c <= targetCdCount data s lvl)%nat
      /\ gtb (comboFd c) (targetFd config data s lvl) = false) ->
  calcProb config data s lvl w = 0.
Proof.
  intro H. unfold calcProb. rewrite enumerate_filter, filter_none; [reflexivity|].
  intros c Hc. destruct (H c Hc) as [Hcd Hfd].
  unfold isWin. rewrite Hfd, andb_false_r, orb_false_r. apply Nat.ltb_ge, Hcd.
Qed.

(** The best shoe combination of the sample catalogue, three times the
    legendary line, held as the baseline: nothing beats it. *)
Lemma calcProb_zero_when_nothing_beats_baseline_witness :
  calcProb Sample.config Sample.data
    (Sample.withLines (Sample.withItem Sample.state "Shoes" "50")
       "STR +12%" "STR +12%" "STR +12%") 50 (glowing Sample.config) = 0.
Proof.
  apply calcProb_zero_when_nothing_beats_baseline.
  assert (F : forallb (fun c =>
      (comboCd c <=? targetCdCount Sample.data
         (Sample.withLines (Sample.withItem Sample.state "Shoes" "50")
            "STR +12%" "STR +12%" "STR +12%") 50)%nat
      && negb (gtb (comboFd c) (targetFd Sample.config Sample.data
         (Sample.withLines (Sample.withItem Sample.state "Shoes" "50")
            "STR +12%" "STR +12%" "STR +12%") 50)))
    (combos (line1Cands Sample.config Sample.data
               (Sample.withLines (Sample.withItem Sample.state "Shoes" "50")
                  "STR +12%" "STR +12%" "STR +12%") 50)
            (line2Cands Sample.config Sample.data
               (Sample.withLines (Sample.withItem Sample.state "Shoes" "50")
                  "STR +12%" "STR +12%" "STR +12%") 50 (glowing Sample.config))
            (line3Cands Sample.config Sample.data
               (Sample.withLines (Sample.withItem Sample.state "Shoes" "50")
                  "STR +12%" "STR +12%" "STR +12%") 50 (glowing Sample.config)))
    = true) by (vm_compute; reflexivity).
  intros c Hc. rewrite forallb_forall in F. specialize (F c Hc).
  apply andb_true_iff in F as [F1 F2]. split.
  - apply Nat.leb_le, F1.
  - apply negb_true_iff, F2.
Defined.

(** Cooldown comes first.  Of two baselines under the same settings, the one
    with more cooldown lines is never easier to beat, whatever the two
    combined bonuses are. *)
Theorem more_baseline_cooldown_never_easier
    (config : Config) (data : list Entry) (a b : State) (lvl : Z) (w : TierWeights) :
  probsNonneg data ->
  weightsNonneg w ->
  sameSettings a b ->
  (targetCdCount data a lvl < targetCdCount data b lvl)%nat ->
  calcProb config data b lvl w <= calcProb config data a lvl w.
Proof.
  intros Hd Hw Hs Hcd.
  destruct (sameSettings_cands config data a b lvl w Hs) as (E1 & E2 & E3).
  unfold calcProb. rewrite !enumerate_filter, <- E1, <- E2, <- E3.
  apply total_filter_le.
  - intros c Hc. eapply comboProb_nonneg; eassumption.
  - intros c _. unfold isWin. rewrite !orb_true_iff, !andb_true_iff, !Nat.ltb_lt, !Nat.eqb_eq.
    intros [H|[H _]]; left; lia.
Qed.

(** One cooldown line held against a baseline of three bonus lines. *)
Lemma more_baseline_cooldown_never_easier_witness :
  calcProb Sample.config Sample.data
    (Sample.withLines Sample.state "Skill Cooldown -1 sec" "" "") 160
    (glowing Sample.config)
  <= calcProb Sample.config Sample.data
       (Sample.withLines Sample.state "STR +12%" "STR +12%" "STR +12%") 160
       (glowing Sample.config).
Proof.
  apply more_baseline_cooldown_never_easier.
  - apply probsNonneg_check. vm_compute. reflexivity.
  - apply weightsNonneg_check. vm_compute. reflexivity.
  - repeat split.
  - vm_compute. lia.
Defined.

(** *** Non-finite bonuses *)

Lemma mul_NaN_r (a : num) : mul a NaN = NaN.
Proof. destruct a; reflexivity. Qed.

Lemma computeMultiplicativeFd_NaN3 (x y z : num) :
  x = NaN \/ y = NaN \/ z = NaN -> computeMultiplicativeFd [x; y; z] = NaN.
Proof.
  unfold computeMultiplicativeFd. cbn [fold_left].
  intros [-> | [-> | ->]].
  - destruct y, z; reflexivity.
  - cbn [div add]. rewrite mul_NaN_r. destruct z; reflexivity.
  - cbn [div add]. rewrite mul_NaN_r. reflexivity.
Qed.

(** A character level that does not parse.  The bonus of an entry whose raw
    stat is in the per-9 list (with a magnitude other than 0 in the table)
    is then NaN; a combination holding a NaN bonus wins through its cooldown
    count only, and a baseline whose combined bonus is NaN is beaten through
    the cooldown count only. *)
Theorem unreadable_charLevel_gives_NaN
    (config : Config) (s : State) (entry : Entry) (st : string) (sv : Q) :
  parseInt (charLevel s) = None ->
  BonusPotentialEntry.statType entry = Some st ->
  BonusPotentialEntry.statValue entry = Some sv ->
  st <> ""%string -> st <> "Skill Cooldown"%string ->
  In st (per9Stats config) ->
  eqb (observedMagnitude config s st) (Fin 0) = false ->
  potentialToFd config s entry = NaN
  /\ (forall tCd tFd c1 c2 c3,
        Cand.fd c1 = NaN \/ Cand.fd c2 = NaN \/ Cand.fd c3 = NaN ->
        isWin tCd tFd (c1, c2, c3) = (tCd <? comboCd (c1, c2, c3))%nat)
  /\ (forall tCd c, isWin tCd NaN c = (tCd <? comboCd c)%nat).
Proof.
  intros Hl Hst Hsv Hne Hcd Hin Hmag. split; [|split].
  - unfold potentialToFd. rewrite Hst, Hsv.
    rewrite (proj2 (String.eqb_neq st "") Hne).
    unfold isSkillCooldown. rewrite (proj2 (String.eqb_neq st "Skill Cooldown") Hcd).
    unfold observedMagnitude, canonical in Hmag. unfold STAT_ALIASES. rewrite Hmag.
    rewrite (proj2 (per9_member config st) Hin), Hl. reflexivity.
  - intros tCd tFd c1 c2 c3 H. unfold isWin at 1. cbn [comboFd].
    rewrite (computeMultiplicativeFd_NaN3 _ _ _ H).
    unfold gtb. destruct tFd; cbn [ltb]; rewrite andb_false_r, orb_false_r; reflexivity.
  - intros tCd c. unfold isWin, gtb.
    destruct (comboFd c); cbn [ltb]; rewrite andb_false_r, orb_false_r; reflexivity.
Qed.

Lemma unreadable_charLevel_gives_NaN_witness :
  potentialToFd Sample.config (Sample.withCharLevel Sample.state "") Sample.uniPer9
  = NaN.
Proof.
  apply (unreadable_charLevel_gives_NaN Sample.config
           (Sample.withCharLevel Sample.state "") Sample.uniPer9
           "STR per 9 levels" 1).
  - vm_compute. reflexivity.
  - reflexivity.
  - reflexivity.
  - discriminate.
  - discriminate.
  - left. reflexivity.
  - vm_compute. reflexivity.
Defined.

(** *** The order of the baseline lines *)

Lemma Permutation_filter_length {A} (f : A -> bool) (l l' : list A) :
  Permutation l l' -> List.length (List.filter f l) = List.length (List.filter f l').
Proof.
  induction 1 as [|x l l' _ IH|x y l|l l' l'' _ IH1 _ IH2]; cbn [List.filter].
  - reflexivity.
  - destruct (f x); cbn [List.length]; rewrite IH; reflexivity.
  - destruct (f x), (f y); reflexivity.
  - rewrite IH1. exact IH2.
Qed.

(** The order in which the three baseline lines are chosen does not change
    what the baseline is made of: under the same settings, two baselines
    whose three selections are a permutation of each other have the same
    cooldown count and the same three per-line bonuses, in permuted
    order. *)
Theorem baseline_lines_permute
    (config : Config) (data : list Entry) (a b : State) (lvl : Z) :
  sameSettings a b ->
  Permutation [line1 a; line2 a; line3 a] [line1 b; line2 b; line3 b] ->
  targetCdCount data a lvl = targetCdCount data b lvl
  /\ Permutation (targetFds config data a lvl) (targetFds config data b lvl).
Proof.
  intros Hs Hp.
  pose (look := fun n => findPot data a lvl n "legendary").
  assert (La : [sel1 data a lvl; sel2 data a lvl; sel3 data a lvl]
               = List.map look [line1 a; line2 a; line3 a]).
  { unfold sel1, sel2, sel3. rewrite !second_lookup_never_decides. reflexivity. }
  assert (Lb : [sel1 data b lvl; sel2 data b lvl; sel3 data b lvl]
               = List.map look [line1 b; line2 b; line3 b]).
  { unfold sel1, sel2, sel3. rewrite !second_lookup_never_decides.
    unfold look, findPot, allPots. destruct Hs as (-> & _). reflexivity. }
  assert (Psel : Permutation [sel1 data a lvl; sel2 data a lvl; sel3 data a lvl]
                             [sel1 data b lvl; sel2 data b lvl; sel3 data b lvl]).
  { rewrite La, Lb. apply Permutation_map, Hp. }
  split.
  - unfold targetCdCount. destruct Hs as (_ & _ & <- & _).
    destruct (skillCooldown a); [|reflexivity].
    apply Permutation_filter_length, Psel.
  - pose (g := fun p : option Entry =>
                 match p with
                 | Some e => if negb (isCd p) then potentialToFd config a e else Fin 0
                 | None => Fin 0
                 end).
    assert (Ta : targetFds config data a lvl
                 = List.map g [sel1 data a lvl; sel2 data a lvl; sel3 data a lvl])
      by reflexivity.
    assert (Tb : targetFds config data b lvl
                 = List.map g [sel1 data b lvl; sel2 data b lvl; sel3 data b lvl]).
    { unfold targetFds, g, potentialToFd, textOr0.
      destruct Hs as (_ & <- & _ & <-). reflexivity. }
    rewrite Ta, Tb. apply Permutation_map, Psel.
Qed.

Lemma baseline_lines_permute_witness :
  targetCdCount Sample.data
    (Sample.withLines Sample.state "STR +12%" "Skill Cooldown -1 sec" "") 160
  = targetCdCount Sample.data
      (Sample.withLines Sample.state "" "STR +12%" "Skill Cooldown -1 sec") 160.
Proof.
  apply (baseline_lines_permute Sample.config Sample.data).
  - repeat split.
  - cbn [line1 line2 line3 Sample.withLines].
    apply (Permutation_cons_app [""]%string ["Skill Cooldown -1 sec"]%string
             "STR +12%"%string).
    apply perm_swap.
Defined.

(** *** The percentiles *)

Lemma Q2R_one : Q2R 1 = 1%R.
Proof. unfold Q2R. cbn. Lra.lra. Qed.

Lemma Q2R_zero : Q2R 0 = 0%R.
Proof. unfold Q2R. cbn. Lra.lra. Qed.

Lemma ln_below_one (x : R) : (0 < x < 1)%R -> (ln x < 0)%R.
Proof.
  intros [H0 H1]. rewrite <- ln_1. apply ln_increasing; assumption.
Qed.

Lemma ln_monotone (x y : R) : (0 < x)%R -> (x <= y)%R -> (ln x <= ln y)%R.
Proof.
  intros H0 [H | ->]; [left; apply ln_increasing; assumption | right; reflexivity].
Qed.

Lemma quotient_by_negative (a b c : R) :
  (c < 0)%R -> (b <= a)%R -> (a / c <= b / c)%R.
Proof.
  intros Hc Hab. unfold Rdiv.
  assert (Hi : (/ c < 0)%R) by (apply Rinv_lt_0_compat, Hc).
  Lra.nra.
Qed.

Lemma geomPercentile_mono_q (p q q' : Q) :
  q <= q' -> q' < 1 ->
  leb (geomPercentile p q) (geomPercentile p q') = true.
Proof.
  intros Hq Hq1. unfold geomPercentile.
  destruct (Qle_bool p 0) eqn:E0; [reflexivity|].
  destruct (Qle_bool 1 p) eqn:E1; [reflexivity|].
  cbn [leb]. apply Qle_bool_iff. rewrite <- Zle_Qle. apply Zceil_le.
  assert (P0 : 0 < p).
  { apply Qnot_le_lt. intro H. apply Qle_bool_iff in H. congruence. }
  assert (P1 : p < 1).
  { apply Qnot_le_lt. intro H. apply Qle_bool_iff in H. congruence. }
  apply Qlt_Rlt in P0, P1, Hq1. apply Qle_Rle in Hq.
  rewrite Q2R_zero in P0. rewrite Q2R_one in P1, Hq1.
  apply quotient_by_negative.
  - apply ln_below_one. Lra.lra.
  - apply ln_monotone; Lra.lra.
Qed.

(** For every success probability the four percentiles of a result are in
    order: [p25 <= p50 <= p75 <= p90]. *)
Theorem percentiles_ordered (prob : Q) :
  let r := buildResult prob in
  leb (p25 r) (p50 r) = true /\ leb (p50 r) (p75 r) = true
  /\ leb (p75 r) (p90 r) = true.
Proof.
  cbn [buildResult p25 p50 p75 p90].
  repeat split; apply geomPercentile_mono_q; try qle_eval;
    apply Qlt_alt; reflexivity.
Qed.

(** * [cleanPotentialName] *)

Lemma spanDigits_split (s : list ascii) :
  s = fst (spanDigits s) ++ snd (spanDigits s)
  /\ Forall (fun c => isDigit c = true) (fst (spanDigits s)).
Proof.
  induction s as [|c r [IH1 IH2]]; [split; [reflexivity|constructor]|].
  cbn [spanDigits]. destruct (isDigit c) eqn:E.
  - destruct (spanDigits r) as [d t]. cbn [fst snd] in *. split.
    + cbn [app]. f_equal. exact IH1.
    + constructor; assumption.
  - split; [reflexivity|constructor].
Qed.

Lemma spanDigits_run (d t : list ascii) :
  Forall (fun c => isDigit c = true) d ->
  match t with [] => True | c :: _ => isDigit c = false end ->
  spanDigits (d ++ t) = (d, t).
Proof.
  intros Hd Ht. induction Hd as [|c d Hc _ IH]; cbn [app].
  - destruct t as [|c r]; [reflexivity|]. cbn [spanDigits]. rewrite Ht. reflexivity.
  - cbn [spanDigits]. rewrite Hc, IH. reflexivity.
Qed.

Lemma skipWs_split (s : list ascii) :
  exists ws, s = ws ++ skipWs s /\ Forall (fun c => isWhite c = true) ws.
Proof.
  induction s as [|c r (ws & IH1 & IH2)]; [exists []; split; [reflexivity|constructor]|].
  cbn [skipWs]. destruct (isWhite c) eqn:E.
  - exists (c :: ws). split; [cbn [app]; f_equal; exact IH1|constructor; assumption].
  - exists []. split; [reflexivity|constructor].
Qed.

Lemma skipWs_run (ws t : list ascii) :
  Forall (fun c => isWhite c = true) ws ->
  match t with [] => True | c :: _ => isWhite c = false end ->
  skipWs (ws ++ t) = t.
Proof.
  intros Hw Ht. induction Hw as [|c ws Hc _ IH]; cbn [app].
  - destruct t as [|c r]; [reflexivity|]. cbn [skipWs]. rewrite Ht. reflexivity.
  - cbn [skipWs]. rewrite Hc. exact IH.
Qed.

Lemma stripPrefix_app (p s : list ascii) : stripPrefix p (p ++ s) = Some s.
Proof.
  induction p as [|a p IH]; [destruct s; reflexivity|].
  cbn [app stripPrefix]. rewrite Ascii.eqb_refl. exact IH.
Qed.

Lemma stripPrefix_Some (p s t : list ascii) : stripPrefix p s = Some t -> s = p ++ t.
Proof.
  revert s. induction p as [|a p IH]; intros s H.
  - destruct s; injection H as <-; reflexivity.
  - destruct s as [|b s]; [discriminate H|]. cbn [stripPrefix] in H.
    destruct (Ascii.eqb_spec a b) as [->|]; [|discriminate H].
    cbn [app]. f_equal. apply IH, H.
Qed.

Lemma digit_not_white (c : ascii) : isDigit c = true -> isWhite c = false.
Proof.
  unfold isDigit, isWhite. intro H. apply andb_true_iff in H as [H1 H2].
  apply Nat.leb_le in H1, H2.
  apply orb_false_iff. split.
  - apply andb_false_iff. right. apply Nat.leb_gt. lia.
  - apply Nat.eqb_neq. lia.
Qed.

(** The shape of a match at the head of [s]. *)
Lemma matchRecover_Some (s g rest : list ascii) :
  matchRecover s = Some (g, rest) ->
  exists d c ws n,
    g = d ++ recoverMid ++ c :: recoverEnd
    /\ s = g ++ ws ++ n ++ rest
    /\ Forall (fun a => isWhite a = true) ws
    /\ Forall (fun a => isDigit a = true) n /\ n <> [].
Proof.
  unfold matchRecover. intro H.
  destruct (spanDigits_split s) as [Es _].
  destruct (spanDigits s) as [d s1]. cbn [fst snd] in Es.
  destruct d as [|d0 d]; [discriminate H|].
  destruct (stripPrefix recoverMid s1) as [[|c s2]|] eqn:E1; try discriminate H.
  apply stripPrefix_Some in E1.
  destruct (Ascii.eqb c "H" || Ascii.eqb c "M")%bool; [|discriminate H].
  destruct (stripPrefix recoverEnd s2) as [s3|] eqn:E2; [|discriminate H].
  apply stripPrefix_Some in E2.
  destruct (skipWs_split s3) as (ws & Ews & Hws).
  destruct (spanDigits_split (skipWs s3)) as [En Hn].
  destruct (spanDigits (skipWs s3)) as [n s4]. cbn [fst snd] in En, Hn.
  destruct n as [|n0 n]; [discriminate H|].
  injection H as <- <-.
  exists (d0 :: d), c, ws, (n0 :: n). split; [reflexivity|].
  split; [|split; [exact Hws|split; [exact Hn|discriminate]]].
  rewrite Es, E1, E2, Ews, En. cbn [app]. f_equal.
  rewrite <- app_assoc. reflexivity.
Qed.

Lemma matchRecover_no_digit (c : ascii) (r : list ascii) :
  isDigit c = false -> matchRecover (c :: r) = None.
Proof. intro H. unfold matchRecover. cbn [spanDigits]. rewrite H. reflexivity. Qed.

Lemma replaceRecover_prefix (pre s : list ascii) :
  Forall (fun c => isDigit c = false) pre ->
  replaceRecover (pre ++ s) = pre ++ replaceRecover s.
Proof.
  induction 1 as [|c pre Hc _ IH]; [reflexivity|].
  cbn [app replaceRecover]. rewrite (matchRecover_no_digit c _ Hc), IH. reflexivity.
Qed.

Lemma head_not_digit_recoverMid (t : list ascii) :
  match recoverMid ++ t with [] => True | c :: _ => isDigit c = false end.
Proof. reflexivity. Qed.

(** A recovery line loses its trailing number.  For a name made of a
    digit-free prefix, a percentage [d], the words "% chance to recover ",
    [H] or [M], "P when attacking.", white space [ws], a number [n] and a
    rest that does not begin with a digit, [cleanPotentialName] returns the
    name without [ws] and [n]; so names that differ in [ws] and [n] only
    get the same clean name. *)
Theorem cleanPotentialName_strips_recovery_number
    (pre d ws n rest : list ascii) (c : ascii) :
  Forall (fun a => isDigit a = false) pre ->
  Forall (fun a => isDigit a = true) d -> d <> [] ->
  c = "H"%char \/ c = "M"%char ->
  Forall (fun a => isWhite a = true) ws ->
  Forall (fun a => isDigit a = true) n -> n <> [] ->
  match rest with [] => True | a :: _ => isDigit a = false end ->
  cleanPotentialName
    (string_of_list_ascii
       (pre ++ d ++ recoverMid ++ c :: recoverEnd ++ ws ++ n ++ rest))
  = string_of_list_ascii (pre ++ d ++ recoverMid ++ c :: recoverEnd ++ rest).
Proof.
  intros Hpre Hd Hd0 Hc Hws Hn Hn0 Hrest.
  unfold cleanPotentialName. rewrite list_ascii_of_string_of_list_ascii. f_equal.
  rewrite replaceRecover_prefix by exact Hpre. f_equal.
  assert (M : matchRecover (d ++ recoverMid ++ c :: recoverEnd ++ ws ++ n ++ rest)
              = Some (d ++ recoverMid ++ c :: recoverEnd, rest)).
  { unfold matchRecover.
    rewrite (spanDigits_run d (recoverMid ++ c :: recoverEnd ++ ws ++ n ++ rest) Hd
               (head_not_digit_recoverMid (c :: recoverEnd ++ ws ++ n ++ rest))).
    destruct d as [|d0 d']; [contradiction|].
    rewrite stripPrefix_app.
    assert (Ec : (Ascii.eqb c "H" || Ascii.eqb c "M")%bool = true)
      by (destruct Hc as [-> | ->]; reflexivity).
    rewrite Ec, stripPrefix_app.
    rewrite (skipWs_run ws (n ++ rest) Hws).
    - rewrite (spanDigits_run n rest Hn Hrest).
      destruct n as [|n0 n']; [contradiction|reflexivity].
    - destruct n as [|n0 n']; [contradiction|]. cbn [app].
      apply digit_not_white. inversion Hn; assumption. }
  destruct d as [|d0 d']; [contradiction|].
  cbn [app replaceRecover]. cbn [app] in M. rewrite M.
  cbn [app]. f_equal. rewrite <- app_assoc. reflexivity.
Qed.

Lemma cleanPotentialName_strips_recovery_number_witness :
  cleanPotentialName "15% chance to recover HP when attacking. 95"
  = "15% chance to recover HP when attacking."%string.
Proof.
  apply (cleanPotentialName_strips_recovery_number []
           (list_ascii_of_string "15") (list_ascii_of_string " ")
           (list_ascii_of_string "95") [] "H"%char).
  - constructor.
  - repeat constructor.
  - discriminate.
  - left. reflexivity.
  - repeat constructor.
  - repeat constructor.
  - discriminate.
  - exact I.
Defined.

(** [cleanPotentialName] never does more than delete one run of white space
    and digits: either the name comes back as it is, or it is
    [pre ++ ws ++ n ++ post] with [ws] white space and [n] a number, and
    [pre ++ post] comes back. *)
Theorem cleanPotentialName_only_deletes_one_number (name : string) :
  cleanPotentialName name = name
  \/ exists pre ws n post,
       list_ascii_of_string name = pre ++ ws ++ n ++ post
       /\ Forall (fun a => isWhite a = true) ws
       /\ Forall (fun a => isDigit a = true) n /\ n <> []
       /\ cleanPotentialName name = string_of_list_ascii (pre ++ post).
Proof.
  unfold cleanPotentialName.
  assert (G : forall s,
    replaceRecover s = s
    \/ exists pre ws n post,
         s = pre ++ ws ++ n ++ post
         /\ Forall (fun a => isWhite a = true) ws
         /\ Forall (fun a => isDigit a = true) n /\ n <> []
         /\ replaceRecover s = pre ++ post).
  { induction s as [|c r IH]; [left; reflexivity|].
    cbn [replaceRecover]. destruct (matchRecover (c :: r)) as [[g rest]|] eqn:M.
    - right. destruct (matchRecover_Some _ _ _ M) as (d & c0 & ws & n & Eg & Es & Hw & Hn & Hn0).
      exists g, ws, n, rest. repeat split; assumption.
    - destruct IH as [IH|(pre & ws & n & post & Es & Hw & Hn & Hn0 & IH)].
      + left. rewrite IH. reflexivity.
      + right. exists (c :: pre), ws, n, post. rewrite IH.
        split; [rewrite Es; reflexivity|]. repeat split; assumption. }
  destruct (G (list_ascii_of_string name)) as [E|(pre & ws & n & post & Es & Hw & Hn & Hn0 & E)].
  - left. rewrite E. apply string_of_list_ascii_of_string.
  - right. exists pre, ws, n, post. rewrite E. repeat split; assumption.
Qed.

(** A name that does not contain the words "% chance to recover " comes
    back as it is. *)
Theorem cleanPotentialName_leaves_other_names (name : string) :
  (forall pre post, list_ascii_of_string name <> pre ++ recoverMid ++ post) ->
  cleanPotentialName name = name.
Proof.
  intro H. unfold cleanPotentialName.
  assert (G : forall s, (forall pre post, s <> pre ++ recoverMid ++ post) ->
                        replaceRecover s = s).
  { induction s as [|c r IH]; intro Hs; [reflexivity|].
    cbn [replaceRecover]. destruct (matchRecover (c :: r)) as [[g rest]|] eqn:M.
    - exfalso.
      destruct (matchRecover_Some _ _ _ M) as (d & c0 & ws & n & Eg & Es & _).
      apply (Hs d (c0 :: recoverEnd ++ ws ++ n ++ rest)).
      rewrite Es, Eg. rewrite <- !app_assoc. reflexivity.
    - f_equal. apply IH. intros pre post E. apply (Hs (c :: pre) post).
      rewrite E. reflexivity. }
  rewrite (G _ H). apply string_of_list_ascii_of_string.
Qed.

Lemma cleanPotentialName_leaves_other_names_witness :
  cleanPotentialName "STR +12%" = "STR +12%"%string.
Proof.
  apply cleanPotentialName_leaves_other_names.
  intros pre post E. apply (f_equal (@List.length ascii)) in E.
  rewrite !length_app in E. cbn in E. lia.
Defined.

(** * The option lists *)

Lemma distinctFrom_In (seen xs : list string) (x : string) :
  In x (distinctFrom seen xs) <-> In x xs /\ ~ In x seen.
Proof.
  revert seen. induction xs as [|y r IH]; intro seen; cbn [distinctFrom].
  - cbn. tauto.
  - destruct (existsb (String.eqb y) seen) eqn:E.
    + apply existsb_exists in E as (z & Hz & Ez). apply String.eqb_eq in Ez. subst z.
      rewrite IH. cbn [In]. split; [tauto|].
      intros [[->|H] Hn]; [contradiction|tauto].
    + assert (Hy : ~ In y seen).
      { intro H. assert (T : existsb (String.eqb y) seen = true).
        { apply existsb_exists. exists y. split; [exact H|apply String.eqb_refl]. }
        congruence. }
      cbn [In]. rewrite IH. cbn [In]. split.
      * intros [->|[H Hn]]; [tauto|]. split; [tauto|]. intro Hs. apply Hn. tauto.
      * intros [[->|H] Hn]; [tauto|].
        destruct (String.eqb_spec y x) as [->|Hne]; [tauto|].
        right. split; [exact H|]. intros [->|Hs]; [apply Hne; reflexivity|tauto].
Qed.

Lemma distinctFrom_NoDup (seen xs : list string) : List.NoDup (distinctFrom seen xs).
Proof.
  revert seen. induction xs as [|y r IH]; intro seen; cbn [distinctFrom].
  - constructor.
  - destruct (existsb (String.eqb y) seen); [apply IH|].
    constructor; [|apply IH]. rewrite distinctFrom_In. cbn [In]. tauto.
Qed.

#[global] Instance strLe_total : Total strLe.
Proof. intros a b. apply String.leb_total. Qed.

Lemma sortNames_In (xs : list string) (x : string) : In x (sortNames xs) <-> In x xs.
Proof.
  unfold sortNames. split; apply Permutation_in;
    [|apply Permutation_sym]; apply merge_sort_Permutation.
Qed.

Lemma optionNames_In (tierOk : string -> bool) (item : string) (lvl : num)
    (data : list Entry) (n : string) :
  In n (optionNames tierOk item lvl data)
  <-> exists p, In p data /\ BonusPotentialEntry.itemType p = item
                /\ tierOk (BonusPotentialEntry.tier p) = true
                /\ inRangeNum lvl p = true
                /\ cleanPotentialName (BonusPotentialEntry.potential p) = n.
Proof.
  unfold optionNames. rewrite sortNames_In, distinctFrom_In, in_map_iff. split.
  - intros [(p & E & Hp) _]. apply filter_In in Hp as [Hd Hf].
    rewrite !andb_true_iff, String.eqb_eq in Hf. exists p. tauto.
  - intros (p & Hd & Hi & Ht & Hr & E). split; [|intros []].
    exists p. split; [exact E|]. apply filter_In. split; [exact Hd|].
    rewrite !andb_true_iff, String.eqb_eq. tauto.
Qed.

Lemma inRangeNum_NaN (p : Entry) : inRangeNum NaN p = false.
Proof. reflexivity. Qed.

Lemma inRangeNum_inRange (lvl : Z) (p : Entry) :
  inRangeNum (ofInt (Some lvl)) p = inRange lvl p.
Proof. reflexivity. Qed.

(** Both option lists are in ascending order and free of duplicates,
    whatever the catalogue; they are empty when the item type or the level
    is empty, and also when the level does not parse to a number. *)
Theorem lineOptions_sorted_distinct (data : list Entry) (s : State) :
  let o1 := fst (lineOptions data s) in
  let o23 := snd (lineOptions data s) in
  (Sorted strLe o1 /\ List.NoDup o1 /\ Sorted strLe o23 /\ List.NoDup o23)
  /\ (itemType s = ""%string \/ level s = ""%string \/ parseInt (level s) = None ->
      o1 = [] /\ o23 = []).
Proof.
  unfold lineOptions.
  destruct (String.eqb_spec (itemType s) "") as [Ei|Ei]; cbn [orb].
  { split; [repeat split; constructor|]. intros _. split; reflexivity. }
  destruct (String.eqb_spec (level s) "") as [El|El].
  { split; [repeat split; constructor|]. intros _. split; reflexivity. }
  cbn [fst snd]. split.
  - unfold optionNames, sortNames.
    repeat split; try apply Sorted_merge_sort; try apply _;
      (eapply Permutation_NoDup;
       [apply Permutation_sym, merge_sort_Permutation|apply distinctFrom_NoDup]).
  - intros [H|[H|H]]; try contradiction. rewrite H. cbn [ofInt].
    assert (E : forall tierOk,
      optionNames tierOk (itemType s) NaN data = []).
    { intro tierOk. unfold optionNames.
      replace (List.filter _ data) with (@nil Entry); [reflexivity|].
      symmetry. apply filter_none. intros p _. rewrite inRangeNum_NaN.
      apply andb_false_r. }
    rewrite !E. split; reflexivity.
Qed.

Lemma lineOptions_sorted_distinct_witness :
  fst (lineOptions Sample.data (Sample.withItem Sample.state "Hat" "abc")) = []
  /\ snd (lineOptions Sample.data (Sample.withItem Sample.state "Hat" "abc")) = [].
Proof.
  apply (lineOptions_sorted_distinct Sample.data
           (Sample.withItem Sample.state "Hat" "abc")).
  right. right. vm_compute. reflexivity.
Defined.

(** What the lists hold.  With a non-empty item type and level text, a name
    is a line-1 option exactly when some catalogue entry of that item type
    and of tier legendary, whose level range holds the parsed level, has it
    as clean name; it is a line-2/3 option exactly when such an entry of
    tier unique or legendary has; so every line-1 option is a line-2/3
    option. *)
Theorem lineOptions_members (data : list Entry) (s : State) (n : string) :
  itemType s <> ""%string -> level s <> ""%string ->
  let lvl := ofInt (parseInt (level s)) in
  let named := fun (tierOk : string -> Prop) =>
    exists p, In p data /\ BonusPotentialEntry.itemType p = itemType s
              /\ tierOk (BonusPotentialEntry.tier p)
              /\ inRangeNum lvl p = true
              /\ cleanPotentialName (BonusPotentialEntry.potential p) = n in
  (In n (fst (lineOptions data s)) <-> named (fun t => t = "legendary"%string))
  /\ (In n (snd (lineOptions data s))
      <-> named (fun t => t = "unique"%string \/ t = "legendary"%string))
  /\ (In n (fst (lineOptions data s)) -> In n (snd (lineOptions data s))).
Proof.
  intros Hi Hl lvl named. unfold lineOptions.
  rewrite (proj2 (String.eqb_neq _ _) Hi), (proj2 (String.eqb_neq _ _) Hl).
  cbn [orb fst snd]. fold lvl.
  assert (A : In n (optionNames (fun t => String.eqb t "legendary") (itemType s) lvl data)
              <-> named (fun t => t = "legendary"%string)).
  { rewrite optionNames_In. unfold named.
    split; intros (p & H1 & H2 & H3 & H4); exists p; repeat split; try tauto.
    - apply String.eqb_eq, H3.
    - apply String.eqb_eq, H3. }
  assert (B : In n (optionNames (fun t => String.eqb t "unique" || String.eqb t "legendary")
                      (itemType s) lvl data)
              <-> named (fun t => t = "unique"%string \/ t = "legendary"%string)).
  { rewrite optionNames_In. unfold named.
    split; intros (p & H1 & H2 & H3 & H4); exists p; repeat split; try tauto.
    - apply orb_true_iff in H3. rewrite !String.eqb_eq in H3. exact H3.
    - apply orb_true_iff. rewrite !String.eqb_eq. exact H3. }
  split; [exact A|]. split; [exact B|].
  rewrite A, B. intros (p & H1 & H2 & H3 & H4). exists p. tauto.
Qed.

Lemma lineOptions_members_witness :
  In "STR +12%"%string (snd (lineOptions Sample.data Sample.state)).
Proof.
  apply (proj2 (proj2 (lineOptions_members Sample.data Sample.state "STR +12%"
                         ltac:(discriminate) ltac:(discriminate)))).
  vm_compute. left. reflexivity.
Defined.

Lemma allPots_inRangeNum (data : list Entry) (s : State) (lvl : Z) (p : Entry) :
  In p (allPots data s lvl)
  <-> In p data /\ BonusPotentialEntry.itemType p = itemType s
      /\ inRangeNum (ofInt (Some lvl)) p = true.
Proof.
  unfold allPots. rewrite filter_In, inRangeNum_inRange.
  destruct (String.eqb_spec (BonusPotentialEntry.itemType p) (itemType s)) as [E|E];
    cbn [negb]; [tauto|].
  split; [intros [_ H]; discriminate H|tauto].
Qed.

(** The option lists and the lookup agree.  With an item level that parses,
    a line-1 selection taken from the line-1 options resolves to the first
    eligible legendary entry of that name.  A line-2 (or line-3) selection
    taken from the line-2/3 options resolves to the first eligible legendary
    entry of that name when there is one, and otherwise to the first
    eligible entry of that name, whatever its tier. *)
Theorem selected_option_resolves (data : list Entry) (s : State) (lvl : Z) :
  parseInt (level s) = Some lvl ->
  (In (line1 s) (fst (lineOptions data s)) ->
     exists e, sel1 data s lvl = Some e /\ In e (allPots data s lvl)
               /\ nameIs (line1 s) e = true
               /\ BonusPotentialEntry.tier e = "legendary"%string
               /\ firstWith (fun p => nameIs (line1 s) p
                                      && String.eqb (BonusPotentialEntry.tier p)
                                                    "legendary")
                            (allPots data s lvl) e)
  /\ (forall n sel,
        (n = line2 s /\ sel = sel2 data s lvl) \/ (n = line3 s /\ sel = sel3 data s lvl) ->
        In n (snd (lineOptions data s)) ->
        exists e, sel = Some e /\ In e (allPots data s lvl) /\ nameIs n e = true
                  /\ ((BonusPotentialEntry.tier e = "legendary"%string
                       /\ firstWith (fun p => nameIs n p
                                              && String.eqb (BonusPotentialEntry.tier p)
                                                            "legendary")
                                    (allPots data s lvl) e)
                      \/ ((forall p, In p (allPots data s lvl) -> nameIs n p = true ->
                                     BonusPotentialEntry.tier p <> "legendary"%string)
                          /\ firstWith (fun p => nameIs n p) (allPots data s lvl) e))).
Proof.
  intro Hl.
  assert (G : forall n, In n (snd (lineOptions data s)) ->
    exists p, In p (allPots data s lvl) /\ nameIs n p = true).
  { intros n H. unfold lineOptions in H.
    destruct (String.eqb (itemType s) "" || String.eqb (level s) "");
      [cbn in H; tauto|].
    cbn [fst snd] in H. rewrite Hl in H.
    apply optionNames_In in H as (p & Hd & Hi & _ & Hr & Hn).
    exists p. split; [apply allPots_inRangeNum; auto|].
    unfold nameIs. rewrite Hn. apply String.eqb_refl. }
  split.
  - intro H. unfold sel1.
    assert (E : exists p, In p (allPots data s lvl) /\ nameIs (line1 s) p = true
                          /\ BonusPotentialEntry.tier p = "legendary"%string).
    { unfold lineOptions in H.
      destruct (String.eqb (itemType s) "" || String.eqb (level s) "");
        [cbn in H; tauto|].
      cbn [fst] in H. rewrite Hl in H.
      apply optionNames_In in H as (p & Hd & Hi & Ht & Hr & Hn).
      exists p. split; [apply allPots_inRangeNum; auto|].
      split; [unfold nameIs; rewrite Hn; apply String.eqb_refl|].
      apply String.eqb_eq, Ht. }
    destruct E as (p & Hp & Hn & Ht). unfold findPot.
    destruct (List.find (fun p => nameIs (line1 s) p
                                  && String.eqb (BonusPotentialEntry.tier p) "legendary")
                (allPots data s lvl)) as [e|] eqn:F.
    + destruct (find_some _ _ F) as [He H']. apply andb_true_iff in H' as [H1 H2].
      apply String.eqb_eq in H2. exists e. cbn [orElse].
      repeat split; try assumption. apply find_firstWith, F.
    + exfalso. assert (H' := find_none _ _ F p Hp). cbn beta in H'.
      rewrite Hn, Ht, String.eqb_refl in H'. discriminate H'.
  - intros n sel Hsel Hin.
    assert (S : sel = findPot data s lvl n "legendary").
    { destruct Hsel as [[-> ->]|[-> ->]]; [unfold sel2|unfold sel3];
        apply second_lookup_never_decides. }
    destruct (G n Hin) as (p & Hp & Hn).
    rewrite S. unfold findPot.
    destruct (List.find (fun p => nameIs n p
                                  && String.eqb (BonusPotentialEntry.tier p) "legendary")
                (allPots data s lvl)) as [e|] eqn:F1; cbn [orElse].
    + destruct (find_some _ _ F1) as [He H]. apply andb_true_iff in H as [H1 H2].
      apply String.eqb_eq in H2. exists e.
      split; [reflexivity|]. split; [exact He|]. split; [exact H1|]. left.
      split; [exact H2|apply find_firstWith, F1].
    + destruct (List.find (fun p => nameIs n p) (allPots data s lvl)) as [e|] eqn:F2.
      * destruct (find_some _ _ F2) as [He H]. exists e.
        split; [reflexivity|]. split; [exact He|]. split; [exact H|]. right.
        split; [|apply find_firstWith, F2].
        intros p' Hp' Hn' Ht'.
        assert (Hf := find_none _ _ F1 p' Hp'). cbn beta in Hf.
        rewrite Hn', Ht', String.eqb_refl in Hf. discriminate Hf.
      * exfalso. assert (H := find_none _ _ F2 p Hp). cbn beta in H. congruence.
Qed.

Lemma selected_option_resolves_witness :
  let s := Sample.withLines Sample.state "STR +12%" "" "" in
  exists e, sel1 Sample.data s 160 = Some e /\ In e (allPots Sample.data s 160)
            /\ nameIs (line1 s) e = true
            /\ BonusPotentialEntry.tier e = "legendary"%string
            /\ firstWith (fun p => nameIs (line1 s) p
                                   && String.eqb (BonusPotentialEntry.tier p)
                                                 "legendary")
                         (allPots Sample.data s 160) e.
Proof.
  intro s.
  apply (proj1 (selected_option_resolves Sample.data s 160 ltac:(vm_compute; reflexivity))).
  vm_compute. left. reflexivity.
Defined.

(** * The stat table *)

Lemma fold_insert_lookup (g : string -> StatValue) (l : list string)
    (m : gmap string StatValue) (k : string) :
  fold_left (fun acc s => <[s := g s]> acc) l m !! k
  = if decide (k ∈ l) then Some (g k) else m !! k.
Proof.
  revert m. induction l as [|a l IH]; intro m; cbn [fold_left].
  - destruct (decide (k ∈ [])) as [H|_]; [inversion H|reflexivity].
  - rewrite IH. destruct (decide (k ∈ l)) as [H|H].
    + rewrite decide_True by (right; exact H). reflexivity.
    + destruct (decide (a = k)) as [->|Hne].
      * rewrite decide_True by left. apply lookup_insert_eq.
      * rewrite lookup_insert_ne by exact Hne.
        rewrite decide_False; [reflexivity|].
        intro Hk. apply elem_of_cons in Hk as [->|Hk]; [apply Hne; reflexivity|tauto].
Qed.

Lemma fold_saved_lookup (inherited : string -> bool) (sv : gmap string StatValue)
    (ks : list string) (acc : gmap string StatValue) (k : string) :
  fold_left (fun initial key =>
      if bool_decide (is_Some (initial !! key)) || inherited key then
        match sv !! key with
        | Some row => <[key := row]> initial
        | None => initial
        end
      else initial) ks acc !! k
  = match acc !! k with
    | Some b => Some (if decide (k ∈ ks) then default b (sv !! k) else b)
    | None => if decide (k ∈ ks) then (if inherited k then sv !! k else None) else None
    end.
Proof.
  revert acc. induction ks as [|a ks IH]; intro acc; cbn [fold_left].
  - destruct (decide (k ∈ [])) as [H|_]; [inversion H|].
    destruct (acc !! k); reflexivity.
  - rewrite IH. clear IH.
    destruct (decide (a = k)) as [->|Hne].
    + destruct (decide (k ∈ k :: ks)) as [_|N]; [|exfalso; apply N; left].
      destruct (acc !! k) as [b|] eqn:E.
      * rewrite bool_decide_eq_true_2 by eauto. cbn [orb].
        destruct (sv !! k) as [row|] eqn:S.
        -- rewrite lookup_insert_eq. cbn [default].
           destruct (decide (k ∈ ks)); reflexivity.
        -- rewrite E. cbn [default]. destruct (decide (k ∈ ks)); reflexivity.
      * rewrite bool_decide_eq_false_2 by (intros [? ?]; discriminate). cbn [orb].
        destruct (inherited k).
        -- destruct (sv !! k) as [row|] eqn:S.
           ++ rewrite lookup_insert_eq. cbn [default].
              destruct (decide (k ∈ ks)); reflexivity.
           ++ rewrite E. destruct (decide (k ∈ ks)); reflexivity.
        -- rewrite E. destruct (decide (k ∈ ks)); reflexivity.
    + assert (L : (if bool_decide (is_Some (acc !! a)) || inherited a
                   then match sv !! a with
                        | Some row => <[a:=row]> acc
                        | None => acc
                        end
                   else acc) !! k = acc !! k).
      { destruct (bool_decide (is_Some (acc !! a)) || inherited a); [|reflexivity].
        destruct (sv !! a); [apply lookup_insert_ne, Hne|reflexivity]. }
      rewrite L.
      destruct (decide (k ∈ ks)) as [H|H], (decide (k ∈ a :: ks)) as [H'|H'];
        try reflexivity.
      * exfalso. apply H'. right. exact H.
      * exfalso. apply elem_of_cons in H' as [->|H']; [apply Hne; reflexivity|tauto].
Qed.

(** The rows of the initial stat table.  Every configured stat has a row:
    the saved row when there is one, else the configured default, else
    blank.  A saved row under any other key is dropped, unless the key is a
    name every object inherits, in which case it is taken over. *)
Theorem initialStatValues_rows (inherited : string -> bool) (STAT_TYPES : list string)
    (defaults : gmap string StatValue) (saved : option (gmap string StatValue))
    (k : string) :
  initialStatValues inherited STAT_TYPES defaults saved !! k
  = if decide (k ∈ STAT_TYPES)
    then Some (default (default blankRow (defaults !! k)) (saved ≫= (.!! k)))
    else if inherited k then saved ≫= (.!! k) else None.
Proof.
  unfold initialStatValues. destruct saved as [sv|]; cbn [mbind option_bind].
  - rewrite fold_saved_lookup, fold_insert_lookup.
    assert (K : k ∉ (map_to_list sv).*1 -> sv !! k = None).
    { intro H. destruct (sv !! k) as [row|] eqn:E; [|reflexivity].
      exfalso. apply H. apply list_elem_of_fmap. exists (k, row).
      split; [reflexivity|]. apply elem_of_map_to_list, E. }
    destruct (decide (k ∈ STAT_TYPES)).
    + f_equal. destruct (decide (k ∈ (map_to_list sv).*1)) as [H|H]; [reflexivity|].
      rewrite (K H). reflexivity.
    + rewrite lookup_empty.
      destruct (decide (k ∈ (map_to_list sv).*1)) as [H|H]; [reflexivity|].
      rewrite (K H). destruct (inherited k); reflexivity.
  - rewrite fold_insert_lookup.
    destruct (decide (k ∈ STAT_TYPES)); [reflexivity|].
    rewrite lookup_empty. destruct (inherited k); reflexivity.
Qed.

(** [updateStatValue] changes one field of one row: the row of [stat] gets
    [val] in the field and keeps its other field, every other row is as
    before, and no row disappears. *)
Theorem updateStatValue_changes_one_field
    (prev : gmap string StatValue) (stat : string) (field : StatField) (val : string) :
  let next := updateStatValue prev stat field val in
  (exists row, next !! stat = Some row
     /\ match field with
        | FieldValue =>
            value row = val /\ fd row = fd (default blankRow (prev !! stat))
        | FieldFd =>
            fd row = val /\ value row = value (default blankRow (prev !! stat))
        end)
  /\ (forall k, k <> stat -> next !! k = prev !! k)
  /\ (forall k, is_Some (prev !! k) -> is_Some (next !! k)).
Proof.
  intro next. unfold next, updateStatValue. split; [|split].
  - eexists. split; [apply lookup_insert_eq|].
    destruct field; split; reflexivity.
  - intros k Hk. apply lookup_insert_ne. congruence.
  - intros k Hk. destruct (decide (stat = k)) as [->|Hne].
    + rewrite lookup_insert_eq. eauto.
    + rewrite lookup_insert_ne by exact Hne. exact Hk.
Qed.

(** Editing one stat of the table leaves the bonus of every entry of another
    canonical stat as it was. *)
Theorem updateStatValue_keeps_other_bonuses
    (config : Config) (s : State) (entry : Entry)
    (stat : string) (field : StatField) (val : string) :
  (forall st, BonusPotentialEntry.statType entry = Some st ->
              canonical config st <> stat) ->
  potentialToFd config
    (withStatValues s (updateStatValue (statValues s) stat field val)) entry
  = potentialToFd config s entry.
Proof.
  intro H. unfold potentialToFd.
  destruct (BonusPotentialEntry.statType entry) as [st|]; [|reflexivity].
  destruct (BonusPotentialEntry.statValue entry) as [sv|]; [|reflexivity].
  specialize (H st eq_refl). unfold canonical in H. unfold STAT_ALIASES.
  assert (E : forall f k, k <> stat ->
    textOr0 (withStatValues s (updateStatValue (statValues s) stat field val)) f k
    = textOr0 s f k).
  { intros f k Hk. unfold textOr0, withStatValues, updateStatValue. cbn [statValues].
    rewrite lookup_insert_ne by congruence. reflexivity. }
  rewrite !E by exact H. reflexivity.
Qed.

Lemma updateStatValue_keeps_other_bonuses_witness :
  potentialToFd Sample.config
    (withStatValues Sample.state
       (updateStatValue (statValues Sample.state) "INT" FieldValue "250"))
    Sample.uniPer9
  = potentialToFd Sample.config Sample.state Sample.uniPer9.
Proof.
  apply updateStatValue_keeps_other_bonuses.
  intros st E. injection E as <-. vm_compute. discriminate.
Defined.

Lemma updateStatValue_changes_one_field_witness :
  updateStatValue (statValues Sample.state) "INT" FieldValue "250" !! "STR"%string
  = statValues Sample.state !! "STR"%string.
Proof.
  apply (proj1 (proj2 (updateStatValue_changes_one_field (statValues Sample.state)
                         "INT" FieldValue "250"))).
  discriminate.
Defined.

(** * Clearing the selections *)

(** After the pass that follows a change of item type or level, the
    remembered item type and level are the current ones and, if anything had
    changed, the three lines are empty; nothing but the lines is touched;
    when nothing had changed the selections stay; and a second pass changes
    nothing. *)
Theorem syncSelection_clears_stale_lines (t : Tracked) :
  let t' := syncSelection t in
  prevItemType t' = itemType (current t') /\ prevLevel t' = level (current t')
  /\ sameSettings (current t) (current t') /\ level (current t') = level (current t)
  /\ (itemType (current t) <> prevItemType t \/ level (current t) <> prevLevel t ->
      line1 (current t') = ""%string /\ line2 (current t') = ""%string
      /\ line3 (current t') = ""%string)
  /\ (itemType (current t) = prevItemType t -> level (current t) = prevLevel t -> t' = t)
  /\ syncSelection t' = t'.
Proof.
  unfold syncSelection.
  destruct (String.eqb_spec (itemType (current t)) (prevItemType t)) as [Ei|Ei];
    destruct (String.eqb_spec (level (current t)) (prevLevel t)) as [El|El];
    cbn [negb orb prevItemType prevLevel current clearLines itemType level
         line1 line2 line3].
  all: repeat split; try reflexivity; try congruence; try tauto.
  all: rewrite ?String.eqb_refl; cbn [negb orb]; try reflexivity.
  destruct (String.eqb_spec (itemType (current t)) (prevItemType t)) as [_|N];
    [|contradiction].
  destruct (String.eqb_spec (level (current t)) (prevLevel t)) as [_|N];
    [|contradiction].
  reflexivity.
Qed.

Lemma syncSelection_clears_stale_lines_witness :
  let t := {| prevItemType := "Shoes"; prevLevel := "160";
              current := Sample.withLines Sample.state "STR +12%" "" "" |} in
  line1 (current (syncSelection t)) = ""%string
  /\ line2 (current (syncSelection t)) = ""%string
  /\ line3 (current (syncSelection t)) = ""%string.
Proof.
  intro t.
  apply (proj1 (proj2 (proj2 (proj2 (proj2 (syncSelection_clears_stale_lines t)))))).
  left. discriminate.
Defined.
